(** * The pre-conversion assessment script: report aggregation and normalisation

    A shallow embedding of [scripts/preconversion_assessment_script.py]: the
    severity table, [collect_report_level], [generate_report_message], the
    message transformers, [transform_raw_data], [OutputCollector.to_dict] and
    the [try]/[except]/[finally] of [main].

    Values read by [json.load] are modelled by [json]; a Python [dict] is an
    association list whose order is the dictionary's iteration order; a raised
    exception is the [Raise] branch of [result]. *)

From Stdlib Require Import List String Ascii ZArith Lia Bool.
From Stdlib Require Import Sorting.Sorted Sorting.Permutation.
From Stdlib Require Import Floats.PrimFloat.
From Stdlib Require DecimalString.
Import ListNotations.

Set Implicit Arguments.
Set Warnings "-register-all".
Local Open Scope Z_scope.
Local Open Scope list_scope.

(** ** Values *)

(** What [json.load] returns.  [JObj] lists a dictionary's items in its
    iteration order; a dictionary never holds a key twice. *)
Inductive json : Type :=
| JNull
| JBool (b : bool)
| JInt (n : Z)
| JFloat (x : PrimFloat.float)
| JStr (s : string)
| JList (items : list json)
| JObj (fields : list (string * json)).

Definition dict : Type := list (string * json).

(** ** Exceptions *)

(** The built-in operation a [TypeError] comes from. *)
Inductive builtin_op : Type :=
| OpGetItem   (* v[k] with a string k on a value that is not a dict *)
| OpSetItem   (* v[k] = x *)
| OpDelItem   (* del v[k] *)
| OpPop       (* list.pop(k) with a string k *)
| OpIter      (* for x in v *)
| OpHash.     (* v in d, d[v] with an unhashable v *)

(** The exceptions [except Exception] catches: the script's own
    [ProcessError], those of the built-in operations the script does on the
    report, and whatever else the calls to the host raise, kept by its text.
    [KeyboardInterrupt] and [SystemExit] are no [Exception] and are left out. *)
Inductive exn : Type :=
| ProcessError (message : string)
| KeyError (key : string)
| IndexError
| TypeError (op : builtin_op) (v : json)
| AttributeError (attr : string) (v : json)
| OtherException (text : string).

Inductive result (A : Type) : Type :=
| Ok (a : A)
| Raise (e : exn).

Arguments Ok {A} a.
Arguments Raise {A} e.

Definition bind {A B : Type} (m : result A) (k : A -> result B) : result B :=
  match m with
  | Ok a => k a
  | Raise e => Raise e
  end.

Declare Scope py_scope.
Delimit Scope py_scope with py.
Notation "x <- m ;; k" := (bind m (fun x => k))
  (at level 61, m at next level, right associativity) : py_scope.
Notation "' p <- m ;; k" := (bind m (fun p => k))
  (at level 61, p pattern, m at next level, right associativity) : py_scope.
Local Open Scope py_scope.

(** [for x in xs: s = body(s, x)], stopping at the first exception. *)
Fixpoint for_each {A S : Type} (xs : list A) (body : S -> A -> result S) (s : S)
  : result S :=
  match xs with
  | [] => Ok s
  | x :: rest => s' <- body s x ;; for_each rest body s'
  end.

(** ** Dictionaries *)

Fixpoint dict_get (d : dict) (k : string) : option json :=
  match d with
  | [] => None
  | (k', v) :: rest => if String.eqb k' k then Some v else dict_get rest k
  end.

(** [d[k] = v]: an existing key keeps its place, a new one goes last. *)
Fixpoint dict_set (d : dict) (k : string) (v : json) : dict :=
  match d with
  | [] => [(k, v)]
  | (k', v') :: rest =>
      if String.eqb k' k then (k, v) :: rest else (k', v') :: dict_set rest k v
  end.

Definition dict_del (d : dict) (k : string) : dict :=
  filter (fun kv => negb (String.eqb (fst kv) k)) d.

(** [v[k]] for a string [k]. *)
Definition py_getitem (v : json) (k : string) : result json :=
  match v with
  | JObj d =>
      match dict_get d k with
      | Some x => Ok x
      | None => Raise (KeyError k)
      end
  | _ => Raise (TypeError OpGetItem v)
  end.

(** [v[k] = x] for a string [k]. *)
Definition py_setitem (v : json) (k : string) (x : json) : result json :=
  match v with
  | JObj d => Ok (JObj (dict_set d k x))
  | _ => Raise (TypeError OpSetItem v)
  end.

(** [del v[k]] for a string [k]. *)
Definition py_delitem (v : json) (k : string) : result json :=
  match v with
  | JObj d =>
      match dict_get d k with
      | Some _ => Ok (JObj (dict_del d k))
      | None => Raise (KeyError k)
      end
  | _ => Raise (TypeError OpDelItem v)
  end.

(** [v.pop(k)] for a string [k]: the popped value and what is left of [v]. *)
Definition py_pop (v : json) (k : string) : result (json * json) :=
  match v with
  | JObj d =>
      match dict_get d k with
      | Some x => Ok (x, JObj (dict_del d k))
      | None => Raise (KeyError k)
      end
  | JList _ => Raise (TypeError OpPop v)
  | _ => Raise (AttributeError "pop" v)
  end.

(** [v.values()] and [v.items()]. *)
Definition py_values (v : json) : result (list json) :=
  match v with
  | JObj d => Ok (map snd d)
  | _ => Raise (AttributeError "values" v)
  end.

Definition py_items (v : json) : result (list (string * json)) :=
  match v with
  | JObj d => Ok d
  | _ => Raise (AttributeError "items" v)
  end.

Fixpoint chars (s : string) : list json :=
  match s with
  | EmptyString => []
  | String c rest => JStr (String c EmptyString) :: chars rest
  end.

(** What [for x in v] goes through: the elements of a list, the keys of a
    dictionary, the characters of a string. *)
Definition py_iter (v : json) : result (list json) :=
  match v with
  | JList items => Ok items
  | JObj d => Ok (map (fun kv => JStr (fst kv)) d)
  | JStr s => Ok (chars s)
  | _ => Raise (TypeError OpIter v)
  end.

(** [l[i]] on a list, for an index that is not negative. *)
Definition list_index {A : Type} (l : list A) (i : nat) : result A :=
  match nth_error l i with
  | Some x => Ok x
  | None => Raise IndexError
  end.

(** ** The severity table *)

Definition STATUS_CODE : list (string * Z) :=
  [ ("SUCCESS"%string, 0);
    ("INFO"%string, 25);
    ("WARNING"%string, 51);
    ("SKIP"%string, 101);
    ("OVERRIDABLE"%string, 152);
    ("ERROR"%string, 202) ].

Fixpoint status_lookup (table : list (string * Z)) (name : string) : option Z :=
  match table with
  | [] => None
  | (k, n) :: rest => if String.eqb k name then Some n else status_lookup rest name
  end.

(** [STATUS_CODE[name]]. *)
Definition status_code (name : string) : result Z :=
  match status_lookup STATUS_CODE name with
  | Some n => Ok n
  | None => Raise (KeyError name)
  end.

(** [STATUS_CODE_NAME]: the table with each pair turned around. *)
Definition STATUS_CODE_NAME : list (Z * string) :=
  map (fun kn => (snd kn, fst kn)) STATUS_CODE.

(** [level in STATUS_CODE] for a value of the report: a list or a dictionary
    cannot be hashed, anything else that is not a string is not a key. *)
Definition in_STATUS_CODE (level : json) : result (option string) :=
  match level with
  | JStr s =>
      match status_lookup STATUS_CODE s with
      | Some _ => Ok (Some s)
      | None => Ok None
      end
  | JList _ | JObj _ => Raise (TypeError OpHash level)
  | _ => Ok None
  end.

(** ** collect_report_level *)

(** [[level for level in levels if level in STATUS_CODE]]: what is kept is a
    string. *)
Fixpoint valid_levels (levels : list json) : result (list string) :=
  match levels with
  | [] => Ok []
  | level :: rest =>
      keep <- in_STATUS_CODE level ;;
      kept <- valid_levels rest ;;
      Ok match keep with
         | Some s => s :: kept
         | None => kept
         end
  end.

(** The loop of [collect_report_level]: [action_level_combined] after all
    actions. *)
Definition collect_action_levels (combined : list json) (value : json)
  : result (list json) :=
  result_msg <- py_getitem value "result" ;;
  level <- py_getitem result_msg "level" ;;
  let combined := combined ++ [level] in
  messages <- py_getitem value "messages" ;;
  messages <- py_iter messages ;;
  for_each messages
    (fun combined message =>
       level <- py_getitem message "level" ;;
       Ok (combined ++ [level]))
    combined.

(** [l.sort(key=..., reverse=True)] on a list already paired with its keys: a
    stable sort, the highest key first and equal keys in their first order. *)
Fixpoint insert_desc (x : Z * string) (sorted : list (Z * string))
  : list (Z * string) :=
  match sorted with
  | [] => [x]
  | y :: rest =>
      if fst x <? fst y then y :: insert_desc x rest else x :: y :: rest
  end.

Fixpoint sort_desc (l : list (Z * string)) : list (Z * string) :=
  match l with
  | [] => []
  | x :: rest => insert_desc x (sort_desc rest)
  end.

Fixpoint with_status_code (levels : list string) : result (list (Z * string)) :=
  match levels with
  | [] => Ok []
  | status :: rest =>
      n <- status_code status ;;
      keyed <- with_status_code rest ;;
      Ok ((n, status) :: keyed)
  end.

Definition sort_by_status_code_reverse (levels : list string)
  : result (list string) :=
  keyed <- with_status_code levels ;;
  Ok (map snd (sort_desc keyed)).

Definition collect_report_level (action_results : json) : result (list string) :=
  values <- py_values action_results ;;
  action_level_combined <- for_each values collect_action_levels [] ;;
  valid_action_levels <- valid_levels action_level_combined ;;
  sort_by_status_code_reverse valid_action_levels.

(** ** generate_report_message *)

Definition MESSAGE_READY : string :=
  "No problems found. The system is ready for conversion.".

Definition MESSAGE_WARNINGS : string :=
  String.append "The conversion can proceed. "
    "However, there is one or more warnings about issues that might occur after the conversion.".

Definition MESSAGE_CANNOT_PROCEED : string :=
  "The conversion cannot proceed. You must resolve existing issues to perform the conversion.".

Definition generate_report_message (highest_status : string) : result string :=
  let message := EmptyString in
  code <- status_code highest_status ;;
  warning <- status_code "WARNING" ;;
  let message := if code <? warning then MESSAGE_READY else message in
  code <- status_code highest_status ;;
  warning <- status_code "WARNING" ;;
  let message := if code =? warning then MESSAGE_WARNINGS else message in
  code <- status_code highest_status ;;
  warning <- status_code "WARNING" ;;
  let message := if warning <? code then MESSAGE_CANNOT_PROCEED else message in
  Ok message.

(** ** The interpreter's wording *)

(** What the script leaves to the Python interpreter it runs on (2 or 3):
    [str(v)] of a value that is not a string, and the text of a [TypeError] or
    an [AttributeError] of a built-in operation. *)
Class Interpreter : Type := {
  py_str : json -> string;
  type_error_text : builtin_op -> json -> string;
  attribute_error_text : string -> json -> string
}.

(** ["%s" % n] for an integer. *)
Definition str_int (n : Z) : string :=
  match n with
  | Z0 => "0"%string
  | _ => DecimalString.NilZero.string_of_int (Z.to_int n)
  end.

(** An interpreter to run the model on examples: [str] as Python has it on
    [None], booleans and integers and a placeholder elsewhere, the texts of
    errors shortened.  No theorem depends on its choices. *)
Definition sample_interpreter : Interpreter := {|
  py_str v :=
    match v with
    | JNull => "None"
    | JBool true => "True"
    | JBool false => "False"
    | JInt n => str_int n
    | JStr s => s
    | _ => "..."
    end%string;
  type_error_text op _ :=
    match op with
    | OpGetItem => "object is not subscriptable"
    | OpSetItem => "object does not support item assignment"
    | OpDelItem => "object does not support item deletion"
    | OpPop => "'str' object cannot be interpreted as an integer"
    | OpIter => "object is not iterable"
    | OpHash => "unhashable type"
    end%string;
  attribute_error_text attr _ :=
    String.append "object has no attribute '" (String.append attr "'")
|}.

Section Script.

Context {interp : Interpreter}.

(** [str(exception)].  The keys the script looks up are literals of its
    text, which [repr] shows between two quotes. *)
Definition str_exn (e : exn) : string :=
  match e with
  | ProcessError message => message
  | KeyError key => String.append "'" (String.append key "'")
  | IndexError => "list index out of range"%string
  | TypeError op v => type_error_text op v
  | AttributeError attr v => attribute_error_text attr v
  | OtherException text => text
  end.

(** ** The message transformers *)

(** [copy.deepcopy]: values of the model are never changed in place. *)
Definition deepcopy (v : json) : json := v.

(** ["%s" % v]. *)
Definition format_s (v : json) : string :=
  match v with
  | JStr s => s
  | _ => py_str v
  end.

Definition _generate_message_key (message : json) (action_id : string)
  : result json :=
  let new_message := deepcopy message in
  id <- py_getitem message "id" ;;
  new_message <-
    py_setitem new_message "key"
      (JStr (String.append action_id (String.append "::" (format_s id)))) ;;
  new_message <- py_delitem new_message "id" ;;
  Ok new_message.

(** [d[outer]["context"] = x]. *)
Definition set_context (d : json) (outer : string) (x : json) : result json :=
  inner <- py_getitem d outer ;;
  inner <- py_setitem inner "context" x ;;
  py_setitem d outer inner.

Definition _generate_detail_block (message : json) : result json :=
  let new_message := deepcopy message in
  let detail_block :=
    JObj [ ("remediation"%string, JObj [("context"%string, JStr "")]);
           ("diagnosis"%string, JObj [("context"%string, JStr "")]) ] in
  remediation <- py_getitem new_message "remediation" ;;
  detail_block <- set_context detail_block "remediation" remediation ;;
  diagnosis <- py_getitem new_message "diagnosis" ;;
  detail_block <- set_context detail_block "diagnosis" diagnosis ;;
  new_message <- py_delitem new_message "remediation" ;;
  new_message <- py_delitem new_message "diagnosis" ;;
  new_message <- py_setitem new_message "detail" detail_block ;;
  Ok new_message.

Definition _rename_dictionary_key (message : json) (new_key old_key : string)
  : result json :=
  let new_message := deepcopy message in
  '(value, new_message) <- py_pop new_message old_key ;;
  new_message <- py_setitem new_message new_key value ;;
  Ok new_message.

Definition apply_message_transform (message : json) (action_id : string)
  : result json :=
  new_message <- _generate_message_key message action_id ;;
  new_message <- _rename_dictionary_key new_message "severity" "level" ;;
  new_message <- _rename_dictionary_key new_message "summary" "description" ;;
  new_message <- _generate_detail_block new_message ;;
  new_message <- py_setitem new_message "modifiers" (JList []) ;;
  Ok new_message.

(** The body of the loop of [transform_raw_data] for one item of
    [raw_data["actions"]]. *)
Definition transform_action (new_data : list json) (item : string * json)
  : result (list json) :=
  let '(action_id, result) := item in
  messages <- py_getitem result "messages" ;;
  messages <- py_iter messages ;;
  new_data <-
    for_each messages
      (fun new_data message =>
         entry <- apply_message_transform message action_id ;;
         Ok (new_data ++ [entry]))
      new_data ;;
  result_msg <- py_getitem result "result" ;;
  entry <- apply_message_transform result_msg action_id ;;
  Ok (new_data ++ [entry]).

Definition transform_raw_data (raw_data : json) : result (list json) :=
  actions <- py_getitem raw_data "actions" ;;
  items <- py_items actions ;;
  for_each items transform_action [].

(** ** OutputCollector *)

Record OutputCollector : Type := {
  status : string;
  message : string;
  report : string;
  tasks_format_version : string;
  tasks_format_id : string;
  entries : option (list json);   (* [None] is Python's None *)
  report_json : json              (* [JNull] is Python's None *)
}.

(** [OutputCollector.__init__]. *)
Definition OutputCollector_init (status message report : string)
    (entries : option (list json)) : OutputCollector :=
  {| status := status;
     message := message;
     report := report;
     tasks_format_version := "1.0";
     tasks_format_id := "oamg-format";
     entries := entries;
     report_json := JNull |}.

Definition set_status (self : OutputCollector) (v : string) : OutputCollector :=
  {| status := v; message := message self; report := report self;
     tasks_format_version := tasks_format_version self;
     tasks_format_id := tasks_format_id self;
     entries := entries self; report_json := report_json self |}.

Definition set_message (self : OutputCollector) (v : string) : OutputCollector :=
  {| status := status self; message := v; report := report self;
     tasks_format_version := tasks_format_version self;
     tasks_format_id := tasks_format_id self;
     entries := entries self; report_json := report_json self |}.

Definition set_report (self : OutputCollector) (v : string) : OutputCollector :=
  {| status := status self; message := message self; report := v;
     tasks_format_version := tasks_format_version self;
     tasks_format_id := tasks_format_id self;
     entries := entries self; report_json := report_json self |}.

Definition set_entries (self : OutputCollector) (v : option (list json))
  : OutputCollector :=
  {| status := status self; message := message self; report := report self;
     tasks_format_version := tasks_format_version self;
     tasks_format_id := tasks_format_id self;
     entries := v; report_json := report_json self |}.

Definition set_report_json (self : OutputCollector) (v : json) : OutputCollector :=
  {| status := status self; message := message self; report := report self;
     tasks_format_version := tasks_format_version self;
     tasks_format_id := tasks_format_id self;
     entries := entries self; report_json := v |}.

(** [OutputCollector.to_dict]: the dictionary it returns and the collector
    after the call ([report_json] is assigned in place). *)
Definition to_dict (self : OutputCollector) : json * OutputCollector :=
  let self :=
    match entries self with
    | Some (e :: es) =>
        set_report_json self
          (JObj [ ("tasks_format_version"%string, JStr (tasks_format_version self));
                  ("tasks_format_id"%string, JStr (tasks_format_id self));
                  ("entries"%string, JList (e :: es)) ])
    | Some [] | None => self
    end in
  (JObj [ ("status"%string, JStr (status self));
          ("message"%string, JStr (message self));
          ("report"%string, JStr (report self));
          ("report_json"%string, report_json self) ],
   self).

(** ** main *)

(** What the host answers to the script's input and output: each field is
    the outcome of the call of that name ([read_report_file] is the [open] and
    [json.load] of [C2R_REPORT_FILE]). *)
Record World : Type := {
  verify_required_files_are_present : result unit;
  setup_convert2rhel : result unit;
  environ : string -> option string;
  run_subprocess :
    list string -> option (list (string * string)) -> result (string * Z);
  read_report_file : result json;
  gather_textual_report : result string;
  cleanup : result unit
}.

Definition install_convert2rhel (w : World) : result unit :=
  '(output, returncode) <-
    run_subprocess w ["yum"; "install"; "convert2rhel"; "-y"]%string None ;;
  if negb (returncode =? 0) then
    Raise (ProcessError
             (String.append "Yum install exited with code '"
                (String.append (str_int returncode) "'.")))
  else
    '(output, returncode) <-
      run_subprocess w ["yum"; "update"; "convert2rhel"; "-y"]%string None ;;
    if negb (returncode =? 0) then
      Raise (ProcessError
               (String.append "Yum update exited with code '"
                  (String.append (str_int returncode) "'.")))
    else Ok tt.

Definition run_convert2rhel (w : World) : result unit :=
  path <- match environ w "PATH" with
          | Some path => Ok path
          | None => Raise (KeyError "PATH")
          end ;;
  let env := [("PATH"%string, path)] in
  let env :=
    match environ w "RHC_WORKER_CONVERT2RHEL_DISABLE_TELEMETRY" with
    | Some v => env ++ [("CONVERT2RHEL_DISABLE_TELEMETRY"%string, v)]
    | None => env
    end in
  '(output, returncode) <-
    run_subprocess w ["/usr/bin/convert2rhel"; "analyze"; "-y"]%string (Some env) ;;
  if negb (returncode =? 0) then
    Raise (ProcessError
             (String.append "Convert2RHEL exited with code '"
                (String.append (str_int returncode) "'.")))
  else Ok tt.

(** The [try] block of [main]: [output] when the block ends without an
    exception. *)
Definition main_try (w : World) (output : OutputCollector)
  : result OutputCollector :=
  _ <- verify_required_files_are_present w ;;
  _ <- setup_convert2rhel w ;;
  _ <- install_convert2rhel w ;;
  _ <- run_convert2rhel w ;;
  data <- read_report_file w ;;
  action_results <- py_getitem data "actions" ;;
  combined_levels <- collect_report_level action_results ;;
  highest <- list_index combined_levels 0 ;;
  let output := set_status output highest in
  text <- gather_textual_report w ;;
  let output := set_report output text in
  highest <- list_index combined_levels 0 ;;
  msg <- generate_report_message highest ;;
  let output := set_message output msg in
  new_data <- transform_raw_data data ;;
  let output := set_entries output (Some new_data) in
  Ok output.

(** [output] when the [finally] block starts. *)
Definition main_output (w : World) : OutputCollector :=
  let output := OutputCollector_init "" "" "" None in
  match main_try w output with
  | Ok output => output
  | Raise (ProcessError message) => OutputCollector_init "ERROR" "" message None
  | Raise exception => OutputCollector_init "ERROR" "" (str_exn exception) None
  end.

(** [main]: the dictionary given to [json.dumps], printed between the two
    marker lines.  The lines [print] writes before are left out. *)
Definition main (w : World) : result json :=
  let output := main_output w in
  _ <- cleanup w ;;
  Ok (fst (to_dict output)).

End Script.

(** ** The shape of a raw report *)

Definition field (k : string) (v : json) : json :=
  match v with
  | JObj d =>
      match dict_get d k with
      | Some x => x
      | None => JNull
      end
  | _ => JNull
  end.

Definition str_field (k : string) (v : json) : string :=
  match field k v with
  | JStr s => s
  | _ => EmptyString
  end.

Definition is_str (v : json) : bool :=
  match v with
  | JStr _ => true
  | _ => false
  end.

(** A raw message: a dictionary with the string fields [id], [level],
    [description], [remediation] and [diagnosis], and whatever else. *)
Definition is_raw_message (m : json) : bool :=
  match m with
  | JObj _ =>
      is_str (field "id" m) && is_str (field "level" m)
      && is_str (field "description" m) && is_str (field "remediation" m)
      && is_str (field "diagnosis" m)
  | _ => false
  end.

Definition messages_of (action : json) : list json :=
  match field "messages" action with
  | JList ms => ms
  | _ => []
  end.

(** An action result: its own [result] message and a list of [messages]. *)
Definition is_raw_action_result (action : json) : bool :=
  match action with
  | JObj _ =>
      is_raw_message (field "result" action)
      && match field "messages" action with
         | JList ms => forallb is_raw_message ms
         | _ => false
         end
  | _ => false
  end.

Definition actions_of (data : json) : list (string * json) :=
  match field "actions" data with
  | JObj actions => actions
  | _ => []
  end.

(** A raw report: [{"actions": {action_id: action result, ...}}]. *)
Definition is_raw_report (data : json) : bool :=
  match data with
  | JObj _ =>
      match field "actions" data with
      | JObj actions => forallb (fun item => is_raw_action_result (snd item)) actions
      | _ => false
      end
  | _ => false
  end.

(** Every level of a report: for each action its [result.level], then the
    [level] of each of its messages. *)
Definition action_levels (action : json) : list json :=
  field "level" (field "result" action)
  :: map (field "level") (messages_of action).

Definition report_levels (data : json) : list json :=
  flat_map (fun item => action_levels (snd item)) (actions_of data).

(** The messages an action gives an entry for: its [messages], then its own
    [result]. *)
Definition action_messages (action : json) : list json :=
  messages_of action ++ [field "result" action].

(** The pairs (action id, message id) of a report. *)
Definition report_id_pairs (data : json) : list (string * string) :=
  flat_map
    (fun item => map (fun m => (fst item, str_field "id" m)) (action_messages (snd item)))
    (actions_of data).

Definition has_colon (s : string) : bool :=
  existsb (Ascii.eqb ":"%char) (list_ascii_of_string s).

(** The host lets the script get as far as reading the report [data]. *)
Definition runs_to_report (w : World) (data : json) : Prop :=
  verify_required_files_are_present w = Ok tt
  /\ setup_convert2rhel w = Ok tt
  /\ install_convert2rhel w = Ok tt
  /\ run_convert2rhel w = Ok tt
  /\ read_report_file w = Ok data.

Definition has_entries (entries : option (list json)) : Prop :=
  exists e es, entries = Some (e :: es).

(** ** Entries *)

Definition detail_of (remediation diagnosis : json) : json :=
  JObj [ ("remediation"%string, JObj [("context"%string, remediation)]);
         ("diagnosis"%string, JObj [("context"%string, diagnosis)]) ].

(** The entry of a message [d], written with the dictionary operations the
    four helpers do one after the other. *)
Definition entry_of (d : dict) (key : string)
    (level description remediation diagnosis : json) : dict :=
  let d := dict_del (dict_set d "key" (JStr key)) "id" in
  let d := dict_set (dict_del d "level") "severity" level in
  let d := dict_set (dict_del d "description") "summary" description in
  let d := dict_del (dict_del d "remediation") "diagnosis" in
  let d := dict_set d "detail" (detail_of remediation diagnosis) in
  dict_set d "modifiers" (JList []).

(** The entry of a raw message. *)
Definition normalized_entry (action_id : string) (m : json) : json :=
  match m with
  | JObj d =>
      JObj (entry_of d
              (String.append action_id (String.append "::" (str_field "id" m)))
              (field "level" m) (field "description" m)
              (field "remediation" m) (field "diagnosis" m))
  | _ => JNull
  end.

Definition action_entries (item : string * json) : list json :=
  map (normalized_entry (fst item)) (action_messages (snd item)).

(** The key of a pair (action id, message id). *)
Definition key_of_pair (p : string * string) : string :=
  String.append (fst p) (String.append "::" (snd p)).

(** ** What main prints after a failure *)

Definition error_output (text : string) : json :=
  JObj [ ("status"%string, JStr "ERROR");
         ("message"%string, JStr "");
         ("report"%string, JStr text);
         ("report_json"%string, JNull) ].

(** ** The sort *)

(** The first element of a list has the highest code. *)
Definition head_highest (l : list (Z * string)) : Prop :=
  match l with
  | [] => True
  | x :: _ => forall y, In y l -> fst y <= fst x
  end.

(** ** Sample data *)

Definition sample_message (id level : string) : json :=
  JObj [ ("id"%string, JStr id);
         ("level"%string, JStr level);
         ("title"%string, JStr "A title");
         ("description"%string, JStr "What was found");
         ("remediation"%string, JStr "What to do");
         ("diagnosis"%string, JStr "Why") ].

Definition sample_action (result : json) (messages : list json) : json :=
  JObj [ ("messages"%string, JList messages); ("result"%string, result) ].

Definition sample_report : json :=
  JObj [ ("actions"%string,
          JObj [ ("A1"%string,
                  sample_action (sample_message "r" "SUCCESS")
                    [sample_message "m1" "WARNING"]);
                 ("A2"%string,
                  sample_action (sample_message "r" "ERROR") []) ]) ].

Definition empty_report : json := JObj [ ("actions"%string, JObj []) ].

(** A host where every step succeeds and convert2rhel leaves [data]. *)
Definition sample_world (data : json) : World := {|
  verify_required_files_are_present := Ok tt;
  setup_convert2rhel := Ok tt;
  environ := fun name => if String.eqb name "PATH" then Some "/usr/bin"%string else None;
  run_subprocess := fun _ _ => Ok (EmptyString, 0);
  read_report_file := Ok data;
  gather_textual_report := Ok "The textual report"%string;
  cleanup := Ok tt
|}.

(** A host where a required file differs from the downloaded one. *)
Definition mismatch_world : World := {|
  verify_required_files_are_present := Ok tt;
  setup_convert2rhel :=
    Raise (ProcessError
             "File '/etc/rhsm/ca/redhat-uep.pem' present on the system does not match the one downloaded. Stopping the execution.");
  environ := fun _ => None;
  run_subprocess := fun _ _ => Ok (EmptyString, 0);
  read_report_file := Ok sample_report;
  gather_textual_report := Ok EmptyString;
  cleanup := Ok tt
|}.

(** Two actions whose ids and result ids run together into one key. *)
Definition colliding_report : json :=
  JObj [ ("actions"%string,
          JObj [ ("a"%string, sample_action (sample_message "b::c" "INFO") []);
                 ("a::b"%string, sample_action (sample_message "c" "INFO") []) ]) ].

(** ** Reports whose levels are of any value *)

(** What Python can hash among the values of a report. *)
Definition is_hashable (v : json) : bool :=
  match v with
  | JList _ | JObj _ => false
  | _ => true
  end.

Definition has_level (m : json) : bool :=
  match m with
  | JObj d =>
      match dict_get d "level" with
      | Some _ => true
      | None => false
      end
  | _ => false
  end.

(** An action whose [result] and [messages] each have a [level]. *)
Definition is_leveled_action (action : json) : bool :=
  match action with
  | JObj _ =>
      has_level (field "result" action)
      && match field "messages" action with
         | JList ms => forallb has_level ms
         | _ => false
         end
  | _ => false
  end.

Definition actions_levels (actions : dict) : list json :=
  flat_map (fun item => action_levels (snd item)) actions.

(** The levels of a list that are names of the table, in their order. *)
Definition known_levels (levels : list json) : list string :=
  flat_map
    (fun level =>
       match level with
       | JStr s =>
           match status_lookup STATUS_CODE s with
           | Some _ => [s]
           | None => []
           end
       | _ => []
       end)
    levels.

(** Levels of the table, the highest code first. *)
Definition sorted_by_code (levels : list string) : Prop :=
  exists codes,
    Forall2 (fun s c => status_lookup STATUS_CODE s = Some c) levels codes
    /\ StronglySorted (fun a b => b <= a) codes.

(** ** Messages with missing fields *)

(** The first field of a message that [apply_message_transform] asks for and
    [d] does not have. *)
Definition first_missing_field (d : dict) : option string :=
  find
    (fun k =>
       match dict_get d k with
       | Some _ => false
       | None => true
       end)
    ["id"; "level"; "description"; "remediation"; "diagnosis"]%string.

(** ** The required files *)

(** [verify_required_files_are_present], [setup_convert2rhel] and [cleanup],
    which [World] keeps only the outcome of, over the calls they make to the
    host.  [system] is the state of the host's files; a function that changes
    it returns the state it leaves, also when it raises. *)
Module Files.

Record RequiredFile : Type := {
  path : string;
  host : string;
  sha512_on_system : option string;   (* the hexdigest of the hash, if any *)
  is_file_present : bool
}.

(** [RequiredFile.__init__]. *)
Definition RequiredFile_init (path host : string) : RequiredFile :=
  {| path := path; host := host; sha512_on_system := None;
     is_file_present := false |}.

(** What [open(path, "r")] and [read] end in: the text, an [IOError] or
    [OSError], or another exception. *)
Inductive read_outcome : Type :=
| ReadOk (text : string)
| ReadIOError (text : string)
| ReadRaise (e : exn).

(** The calls to the host.  [sha512_of_text] is [hashlib.sha512] on what
    [read] returned from a file opened in text mode, which Python 3 refuses;
    [sha512_of_data] is [hashlib.sha512] on downloaded bytes; both stand for
    the hexdigest.  [write_file] is the block that opens the path for
    writing, writes the data and does [os.chmod]. *)
Record Host (system : Type) : Type := {
  os_path_exists : system -> string -> bool;
  os_path_dirname : string -> string;
  open_read : system -> string -> read_outcome;
  sha512_of_text : string -> result string;
  sha512_of_data : string -> string;
  urlopen_read : system -> string -> result string;
  os_makedirs : system -> string -> system * result unit;
  write_file : system -> string -> string -> system * result unit;
  os_remove : system -> string -> system * result unit
}.

Section OnHost.

Context {system : Type} (H : Host system).

(** The files after the loop, and how the loop ended. *)
Fixpoint verify_required_files_are_present (s : system)
    (required_files : list RequiredFile) : list RequiredFile * result unit :=
  match required_files with
  | [] => ([], Ok tt)
  | required_file :: rest =>
      match open_read H s (path required_file) with
      | ReadOk text =>
          match sha512_of_text H text with
          | Ok digest =>
              let required_file :=
                {| path := path required_file; host := host required_file;
                   sha512_on_system := Some digest; is_file_present := true |} in
              let '(rest, outcome) := verify_required_files_are_present s rest in
              (required_file :: rest, outcome)
          | Raise e => (required_file :: rest, Raise e)
          end
      | ReadIOError _ =>
          let required_file :=
            {| path := path required_file; host := host required_file;
               sha512_on_system := sha512_on_system required_file;
               is_file_present := false |} in
          let '(rest, outcome) := verify_required_files_are_present s rest in
          (required_file :: rest, outcome)
      | ReadRaise e => (required_file :: rest, Raise e)
      end
  end.

Definition mismatch_message (path : string) : string :=
  String.append "File '"
    (String.append path
       "' present on the system does not match the one downloaded. Stopping the execution.").

Fixpoint setup_convert2rhel (required_files : list RequiredFile) (s : system)
  : system * result unit :=
  match required_files with
  | [] => (s, Ok tt)
  | required_file :: rest =>
      match urlopen_read H s (host required_file) with
      | Raise e => (s, Raise e)
      | Ok data =>
          let downloaded_file_sha512 := sha512_of_data H data in
          if os_path_exists H s (path required_file) then
            match sha512_on_system required_file with
            | None => (s, Raise (AttributeError "hexdigest" JNull))
            | Some on_system =>
                if negb (String.eqb downloaded_file_sha512 on_system) then
                  (s, Raise (ProcessError (mismatch_message (path required_file))))
                else setup_convert2rhel rest s
            end
          else
            let directory := os_path_dirname H (path required_file) in
            let '(s, made) :=
              if negb (os_path_exists H s directory) then os_makedirs H s directory
              else (s, Ok tt) in
            match made with
            | Raise e => (s, Raise e)
            | Ok _ =>
                let '(s, written) := write_file H s (path required_file) data in
                match written with
                | Raise e => (s, Raise e)
                | Ok _ => setup_convert2rhel rest s
                end
            end
      end
  end.

Fixpoint cleanup (required_files : list RequiredFile) (s : system)
  : system * result unit :=
  match required_files with
  | [] => (s, Ok tt)
  | required_file :: rest =>
      if negb (is_file_present required_file)
         && os_path_exists H s (path required_file)
      then
        let '(s, removed) := os_remove H s (path required_file) in
        match removed with
        | Raise e => (s, Raise e)
        | Ok _ => cleanup rest s
        end
      else cleanup rest s
  end.

End OnHost.

(** A host to run the model on examples: the files are a list of paths with
    their text, a digest is the text itself, every download gives the same
    data. *)
Definition sample_host : Host (list (string * string)) := {|
  os_path_exists s p := existsb (fun f => String.eqb (fst f) p) s;
  os_path_dirname p := p;
  open_read s p :=
    match find (fun f => String.eqb (fst f) p) s with
    | Some f => ReadOk (snd f)
    | None => ReadIOError "No such file or directory"
    end;
  sha512_of_text text := Ok text;
  sha512_of_data data := data;
  urlopen_read _ _ := Ok "downloaded"%string;
  os_makedirs s _ := (s, Ok tt);
  write_file s p data := ((p, data) :: s, Ok tt);
  os_remove s p := (filter (fun f => negb (String.eqb (fst f) p)) s, Ok tt)
|}.

(** A host where every path is there and none can be read, as directories
    are. *)
Definition sample_host_directories : Host (list (string * string)) := {|
  os_path_exists _ _ := true;
  os_path_dirname := os_path_dirname sample_host;
  open_read _ _ := ReadIOError "Is a directory";
  sha512_of_text := sha512_of_text sample_host;
  sha512_of_data := sha512_of_data sample_host;
  urlopen_read := urlopen_read sample_host;
  os_makedirs := os_makedirs sample_host;
  write_file := write_file sample_host;
  os_remove := os_remove sample_host
|}.

(** The same host under an interpreter that does not hash text. *)
Definition sample_host_text_unhashable : Host (list (string * string)) := {|
  os_path_exists := os_path_exists sample_host;
  os_path_dirname := os_path_dirname sample_host;
  open_read := open_read sample_host;
  sha512_of_text _ := Raise (OtherException "Strings must be encoded before hashing");
  sha512_of_data := sha512_of_data sample_host;
  urlopen_read := urlopen_read sample_host;
  os_makedirs := os_makedirs sample_host;
  write_file := write_file sample_host;
  os_remove := os_remove sample_host
|}.

End Files.

(** ** main over the required files *)






(** ** Names by code *)

(** [STATUS_CODE_NAME.get(code)]. *)
Fixpoint status_name (table : list (Z * string)) (code : Z) : option string :=
  match table with
  | [] => None
  | (n, name) :: rest => if n =? code then Some name else status_name rest code
  end.

(** ** Dictionaries: reading after writing *)

Lemma dict_get_set_same (d : dict) (k : string) (v : json) :
  dict_get (dict_set d k v) k = Some v.
Proof.
  induction d as [|[k' v'] d IH]; simpl.
  - now rewrite String.eqb_refl.
  - destruct (String.eqb k' k) eqn:E; simpl.
    + now rewrite String.eqb_refl.
    + now rewrite E.
Qed.

Lemma dict_get_set_other (d : dict) (k k' : string) (v : json) :
  String.eqb k k' = false ->
  dict_get (dict_set d k v) k' = dict_get d k'.
Proof.
  intros Hk. induction d as [|[k0 v0] d IH]; simpl.
  - now rewrite Hk.
  - destruct (String.eqb k0 k) eqn:E; simpl.
    + apply String.eqb_eq in E. subst k0. now rewrite Hk.
    + now rewrite IH.
Qed.

Lemma dict_get_del_same (d : dict) (k : string) :
  dict_get (dict_del d k) k = None.
Proof.
  induction d as [|[k' v'] d IH]; simpl; [reflexivity|].
  destruct (String.eqb k' k) eqn:E; simpl; [assumption|].
  now rewrite E.
Qed.

Lemma dict_get_del_other (d : dict) (k k' : string) :
  String.eqb k k' = false ->
  dict_get (dict_del d k) k' = dict_get d k'.
Proof.
  intros Hk. induction d as [|[k0 v0] d IH]; simpl; [reflexivity|].
  destruct (String.eqb k0 k) eqn:E; simpl.
  - apply String.eqb_eq in E. subst k0. now rewrite Hk.
  - now rewrite IH.
Qed.

(** ** OutputCollector.to_dict *)

(** Whatever [main] does to [output], it is a collector as [__init__] builds
    one: [report_json] is still [None] when [to_dict] is called. *)
Lemma main_output_is_init `{Interpreter} (w : World) :
  exists status message report entries,
    main_output w = OutputCollector_init status message report entries.
Proof.
  unfold main_output.
  destruct (main_try w (OutputCollector_init "" "" "" None)) as [out|e] eqn:E.
  - unfold main_try in E.
    repeat match type of E with
           | bind ?m _ = Ok _ => destruct m; simpl in E; [|discriminate]
           end.
    injection E as <-. now eexists _, _, _, _.
  - destruct e; now eexists _, _, _, _.
Qed.

(** C7: the [report_json] of the dictionary [to_dict] returns for a collector
    built by [__init__] is not [None] exactly when the collector has a
    non-empty list of entries, and it is then the dictionary of the two
    format fields and the entries. *)
Theorem to_dict_report_json (status message report : string)
    (entries : option (list json)) :
  let output := fst (to_dict (OutputCollector_init status message report entries)) in
  exists report_json,
    py_getitem output "report_json" = Ok report_json
    /\ (report_json <> JNull <-> has_entries entries)
    /\ (report_json <> JNull ->
        report_json =
          JObj [ ("tasks_format_version"%string, JStr "1.0");
                 ("tasks_format_id"%string, JStr "oamg-format");
                 ("entries"%string,
                  JList match entries with Some es => es | None => [] end) ]).
Proof.
  unfold has_entries.
  destruct entries as [[|e es]|]; simpl; eexists; (split; [reflexivity|]); split.
  - split; [congruence|]. intros (e & es & Heq). discriminate.
  - congruence.
  - split; [eauto|]. discriminate.
  - reflexivity.
  - split; [congruence|]. intros (e & es & Heq). discriminate.
  - congruence.
Qed.

(** ** generate_report_message *)

(** C8: for a level of the table, the message is decided by comparing its
    code with the code of WARNING: below, equal, above. *)
Theorem generate_report_message_bands (level : string) (code : Z) :
  status_lookup STATUS_CODE level = Some code ->
  exists warning,
    status_code "WARNING" = Ok warning
    /\ generate_report_message level
       = Ok (if code <? warning then MESSAGE_READY
             else if code =? warning then MESSAGE_WARNINGS
             else MESSAGE_CANNOT_PROCEED).
Proof.
  intros Hcode. exists 51. split; [reflexivity|].
  unfold generate_report_message, status_code. rewrite Hcode. simpl.
  destruct (code <? 51) eqn:Hlt, (code =? 51) eqn:Heq, (51 <? code) eqn:Hgt;
    try reflexivity; lia.
Qed.

Lemma generate_report_message_total (level : string) (code : Z) :
  status_lookup STATUS_CODE level = Some code ->
  exists msg, generate_report_message level = Ok msg.
Proof.
  intros Hcode. unfold generate_report_message, status_code.
  rewrite Hcode. simpl. eauto.
Qed.

Lemma generate_report_message_bands_witness :
  status_lookup STATUS_CODE "SKIP" = Some 101
  /\ exists warning,
       status_code "WARNING" = Ok warning
       /\ generate_report_message "SKIP"
          = Ok (if 101 <? warning then MESSAGE_READY
                else if 101 =? warning then MESSAGE_WARNINGS
                else MESSAGE_CANNOT_PROCEED).
Proof.
  split; [reflexivity|].
  apply (@generate_report_message_bands "SKIP" 101). reflexivity.
Defined.

(** ** The handlers of main *)

Lemma main_output_of_failure `{Interpreter} (w : World) (e : exn) :
  main_try w (OutputCollector_init "" "" "" None) = Raise e ->
  main_output w = OutputCollector_init "ERROR" "" (str_exn e) None.
Proof.
  intros Htry. unfold main_output. rewrite Htry. now destruct e.
Qed.

(** [main] raises only what [cleanup] raises. *)
Lemma main_raises_only_from_cleanup `{Interpreter} (w : World) (e : exn) :
  main w = Raise e -> cleanup w = Raise e.
Proof.
  unfold main. destruct (cleanup w); simpl; congruence.
Qed.




(** C3, as stated, fails: with a report of no action the [try] block raises
    an [IndexError], which is no [ProcessError]; its text is not the
    [message] of what [main] prints, which is empty. *)
Lemma main_failure_text_not_in_message :
  exists e output,
    main_try (interp := sample_interpreter) (sample_world empty_report)
      (OutputCollector_init "" "" "" None) = Raise e
    /\ (forall text, e <> ProcessError text)
    /\ main (interp := sample_interpreter) (sample_world empty_report) = Ok output
    /\ py_getitem output "message" = Ok (JStr "")
    /\ str_exn (interp := sample_interpreter) e = "list index out of range"%string
    /\ py_getitem output "message"
       <> Ok (JStr (str_exn (interp := sample_interpreter) e)).
Proof.
  exists IndexError. eexists.
  split; [reflexivity|]. split; [discriminate|].
  split; [reflexivity|]. split; [reflexivity|]. split; [reflexivity|].
  discriminate.
Qed.

(** C3, amended: the text of an exception that is no [ProcessError] is the
    [report] of what [main] prints, and the [message] is empty. *)
Theorem main_failure_text_in_report `{Interpreter} (w : World) (e : exn) :
  main_try w (OutputCollector_init "" "" "" None) = Raise e ->
  (forall text, e <> ProcessError text) ->
  cleanup w = Ok tt ->
  exists output,
    main w = Ok output
    /\ py_getitem output "report" = Ok (JStr (str_exn e))
    /\ py_getitem output "message" = Ok (JStr "").
Proof.
  intros Htry _ Hclean. exists (error_output (str_exn e)).
  unfold main. rewrite (main_output_of_failure _ Htry), Hclean.
  repeat split.
Qed.

Lemma main_failure_text_in_report_witness :
  exists output,
    main (interp := sample_interpreter) (sample_world empty_report) = Ok output
    /\ py_getitem output "report" = Ok (JStr "list index out of range")
    /\ py_getitem output "message" = Ok (JStr "").
Proof.
  apply (@main_failure_text_in_report sample_interpreter
           (sample_world empty_report) IndexError);
    [reflexivity | discriminate | reflexivity].
Defined.

(** ** The message transformers on a dictionary *)

Ltac dict_simpl :=
  repeat first
    [ rewrite dict_get_set_same
    | rewrite dict_get_del_same
    | rewrite dict_get_set_other by reflexivity
    | rewrite dict_get_del_other by reflexivity ].

Section Transformers.

Context {interp : Interpreter}.

Lemma _generate_message_key_dict (d : dict) (action_id : string) (id : json) :
  dict_get d "id" = Some id ->
  _generate_message_key (JObj d) action_id
  = Ok (JObj (dict_del
                (dict_set d "key"
                   (JStr (String.append action_id (String.append "::" (format_s id)))))
                "id")).
Proof.
  intros Hid. unfold _generate_message_key, deepcopy. simpl. rewrite Hid. simpl.
  dict_simpl. now rewrite Hid.
Qed.

Lemma _rename_dictionary_key_dict (d : dict) (new_key old_key : string) (v : json) :
  dict_get d old_key = Some v ->
  _rename_dictionary_key (JObj d) new_key old_key
  = Ok (JObj (dict_set (dict_del d old_key) new_key v)).
Proof.
  intros Hold. unfold _rename_dictionary_key, deepcopy. simpl. now rewrite Hold.
Qed.

Lemma _generate_detail_block_dict (d : dict) (remediation diagnosis : json) :
  dict_get d "remediation" = Some remediation ->
  dict_get d "diagnosis" = Some diagnosis ->
  _generate_detail_block (JObj d)
  = Ok (JObj (dict_set (dict_del (dict_del d "remediation") "diagnosis")
                "detail" (detail_of remediation diagnosis))).
Proof.
  intros Hrem Hdiag. unfold _generate_detail_block, deepcopy. simpl.
  rewrite Hrem. simpl. rewrite Hdiag. simpl. dict_simpl. now rewrite Hdiag.
Qed.

Lemma apply_message_transform_dict (d : dict) (action_id : string)
    (id level description remediation diagnosis : json) :
  dict_get d "id" = Some id ->
  dict_get d "level" = Some level ->
  dict_get d "description" = Some description ->
  dict_get d "remediation" = Some remediation ->
  dict_get d "diagnosis" = Some diagnosis ->
  apply_message_transform (JObj d) action_id
  = Ok (JObj (entry_of d
                (String.append action_id (String.append "::" (format_s id)))
                level description remediation diagnosis)).
Proof.
  intros Hid Hlevel Hdesc Hrem Hdiag. unfold apply_message_transform.
  rewrite (_generate_message_key_dict _ _ Hid). cbn [bind].
  erewrite _rename_dictionary_key_dict by (dict_simpl; exact Hlevel). cbn [bind].
  erewrite _rename_dictionary_key_dict by (dict_simpl; exact Hdesc). cbn [bind].
  erewrite _generate_detail_block_dict
    by (dict_simpl; first [exact Hrem | exact Hdiag]).
  reflexivity.
Qed.

End Transformers.

(** C6: for a message with the fields [id] (a string), [level],
    [description], [remediation] and [diagnosis], the entry has
    [key = action_id + "::" + id] and no [id]; [severity] holds what [level]
    held and [summary] what [description] held, and [level] and [description]
    are gone; [detail] nests what [remediation] and [diagnosis] held, which
    are gone too; [modifiers] is the empty list. *)
Theorem apply_message_transform_entry `{Interpreter} (d : dict)
    (action_id id : string) (level description remediation diagnosis : json) :
  dict_get d "id" = Some (JStr id) ->
  dict_get d "level" = Some level ->
  dict_get d "description" = Some description ->
  dict_get d "remediation" = Some remediation ->
  dict_get d "diagnosis" = Some diagnosis ->
  exists entry,
    apply_message_transform (JObj d) action_id = Ok (JObj entry)
    /\ dict_get entry "key"
       = Some (JStr (String.append action_id (String.append "::" id)))
    /\ dict_get entry "id" = None
    /\ dict_get entry "severity" = Some level
    /\ dict_get entry "level" = None
    /\ dict_get entry "summary" = Some description
    /\ dict_get entry "description" = None
    /\ dict_get entry "detail"
       = Some (JObj [ ("remediation"%string, JObj [("context"%string, remediation)]);
                      ("diagnosis"%string, JObj [("context"%string, diagnosis)]) ])
    /\ dict_get entry "remediation" = None
    /\ dict_get entry "diagnosis" = None
    /\ dict_get entry "modifiers" = Some (JList []).
Proof.
  intros Hid Hlevel Hdesc Hrem Hdiag. eexists. split.
  - exact (apply_message_transform_dict d action_id Hid Hlevel Hdesc Hrem Hdiag).
  - unfold entry_of. cbn zeta. repeat split; dict_simpl; reflexivity.
Qed.

(** ** transform_raw_data on a raw report *)

Lemma is_str_field (d : dict) (k : string) :
  is_str (field k (JObj d)) = true ->
  exists s, dict_get d k = Some (JStr s) /\ field k (JObj d) = JStr s.
Proof.
  unfold field. destruct (dict_get d k) as [[]|]; simpl; try discriminate.
  eauto.
Qed.

Lemma for_each_append {A : Type} (f : A -> result json) (g : A -> json)
    (xs : list A) (acc : list json) :
  Forall (fun x => f x = Ok (g x)) xs ->
  for_each xs (fun acc x => entry <- f x ;; Ok (acc ++ [entry])) acc
  = Ok (acc ++ map g xs).
Proof.
  intros Hxs. revert acc.
  induction Hxs as [|x xs Hx _ IH]; intros acc; simpl.
  - now rewrite app_nil_r.
  - rewrite Hx. simpl. rewrite IH, <- app_assoc. reflexivity.
Qed.

Lemma action_messages_raw (action : json) :
  is_raw_action_result action = true ->
  Forall (fun m => is_raw_message m = true) (action_messages action).
Proof.
  destruct action as [| | | | |?|d]; try discriminate.
  unfold is_raw_action_result, action_messages, messages_of. intros Hraw.
  apply andb_prop in Hraw. destruct Hraw as [Hresult Hmessages].
  destruct (field "messages" (JObj d)) as [| | | | |ms|]; try discriminate.
  apply Forall_app. split.
  - apply Forall_forall. now apply forallb_forall.
  - now constructor.
Qed.

Section RawReport.

Context {interp : Interpreter}.

Lemma apply_message_transform_raw (m : json) (action_id : string) :
  is_raw_message m = true ->
  apply_message_transform m action_id = Ok (normalized_entry action_id m).
Proof.
  destruct m as [| | | | |?|d]; try discriminate.
  unfold is_raw_message. intros Hraw.
  repeat (apply andb_prop in Hraw; destruct Hraw as [Hraw ?]).
  destruct (is_str_field d "id") as (id & Hid & Hid'); [assumption|].
  destruct (is_str_field d "level") as (lv & Hlv & Hlv'); [assumption|].
  destruct (is_str_field d "description") as (ds & Hds & Hds'); [assumption|].
  destruct (is_str_field d "remediation") as (re & Hre & Hre'); [assumption|].
  destruct (is_str_field d "diagnosis") as (dg & Hdg & Hdg'); [assumption|].
  rewrite (apply_message_transform_dict d action_id Hid Hlv Hds Hre Hdg).
  unfold normalized_entry, str_field.
  rewrite Hid', Hlv', Hds', Hre', Hdg'. reflexivity.
Qed.

Lemma transform_action_raw (new_data : list json) (item : string * json) :
  is_raw_action_result (snd item) = true ->
  transform_action new_data item = Ok (new_data ++ action_entries item).
Proof.
  destruct item as [action_id action]. simpl.
  destruct action as [| | | | |?|d]; try discriminate.
  unfold is_raw_action_result. intros Hraw.
  apply andb_prop in Hraw. destruct Hraw as [Hresult Hmessages].
  unfold action_entries, action_messages, messages_of, transform_action. simpl fst; simpl snd.
  unfold field in Hmessages |- *. unfold py_getitem.
  destruct (dict_get d "messages") as [[| | | | |ms|]|]; try discriminate.
  cbn [bind py_iter].
  rewrite (for_each_append (fun m => apply_message_transform m action_id)
             (normalized_entry action_id)).
  - cbn [bind]. fold (field "result" (JObj d)) in Hresult.
    assert (Hget : exists r, dict_get d "result" = Some r /\ is_raw_message r = true).
    { unfold field in Hresult. destruct (dict_get d "result") as [r|]; [eauto|discriminate]. }
    destruct Hget as (r & Hget & Hr). rewrite Hget. cbn [bind].
    rewrite (apply_message_transform_raw _ action_id Hr). cbn [bind].
    now rewrite map_app, app_assoc.
  - apply Forall_forall. intros m Hm. apply apply_message_transform_raw.
    rewrite forallb_forall in Hmessages. auto.
Qed.

Lemma for_each_transform_action (items : list (string * json)) (new_data : list json) :
  forallb (fun item => is_raw_action_result (snd item)) items = true ->
  for_each items transform_action new_data
  = Ok (new_data ++ flat_map action_entries items).
Proof.
  revert new_data. induction items as [|item items IH]; intros new_data Hraw; simpl.
  - now rewrite app_nil_r.
  - simpl in Hraw. apply andb_prop in Hraw. destruct Hraw as [Hitem Hitems].
    rewrite (transform_action_raw _ _ Hitem). simpl.
    rewrite (IH _ Hitems), <- app_assoc. reflexivity.
Qed.

Lemma is_raw_report_actions (data : json) :
  is_raw_report data = true ->
  py_getitem data "actions" = Ok (JObj (actions_of data))
  /\ forallb (fun item => is_raw_action_result (snd item)) (actions_of data) = true.
Proof.
  destruct data as [| | | | |?|d]; try discriminate.
  unfold is_raw_report, actions_of, field, py_getitem.
  destruct (dict_get d "actions") as [[| | | | |?|actions]|]; try discriminate.
  auto.
Qed.

Lemma transform_raw_data_raw (data : json) :
  is_raw_report data = true ->
  transform_raw_data data = Ok (flat_map action_entries (actions_of data)).
Proof.
  intros Hraw. destruct (is_raw_report_actions _ Hraw) as [Hget Hitems].
  unfold transform_raw_data. rewrite Hget. simpl.
  now rewrite (for_each_transform_action _ _ Hitems).
Qed.

End RawReport.

(** C5: on a raw report, [transform_raw_data] returns as many entries as the
    report has messages, counting for each action its [messages] and one
    more for its own [result]. *)
Theorem transform_raw_data_length `{Interpreter} (data : json) :
  is_raw_report data = true ->
  exists new_data,
    transform_raw_data data = Ok new_data
    /\ List.length new_data
       = list_sum
           (map (fun item => (1 + List.length (messages_of (snd item)))%nat)
              (actions_of data)).
Proof.
  intros Hraw. eexists. split; [exact (transform_raw_data_raw _ Hraw)|].
  rewrite length_flat_map. f_equal. apply map_ext. intros item.
  unfold action_entries, action_messages.
  rewrite length_map, length_app. simpl. lia.
Qed.

(** C10: on a raw report, the entries come in groups, one for each action in
    the order of [raw_data["actions"].items()]; the group of an action holds
    the entries of its [messages], in their order, then the entry of its own
    [result]. *)
Theorem transform_raw_data_order `{Interpreter} (data : json) :
  is_raw_report data = true ->
  exists groups,
    transform_raw_data data = Ok (List.concat groups)
    /\ Forall2
         (fun item group =>
            Forall2
              (fun m entry => apply_message_transform m (fst item) = Ok entry)
              (messages_of (snd item) ++ [field "result" (snd item)])
              group)
         (actions_of data) groups.
Proof.
  intros Hraw. exists (map action_entries (actions_of data)). split.
  - rewrite <- flat_map_concat_map. exact (transform_raw_data_raw _ Hraw).
  - destruct (is_raw_report_actions _ Hraw) as [_ Hitems].
    induction (actions_of data) as [|item items IH]; simpl; constructor.
    + simpl in Hitems. apply andb_prop in Hitems. destruct Hitems as [Hitem _].
      pose proof (action_messages_raw _ Hitem) as Hmsgs.
      unfold action_entries. fold (action_messages (snd item)).
      induction Hmsgs as [|m ms Hm _ IHms]; simpl; constructor; auto.
      now apply apply_message_transform_raw.
    + apply IH. simpl in Hitems. apply andb_prop in Hitems. tauto.
Qed.

(** ** Keys *)

Lemma has_colon_cons (c : ascii) (s : string) :
  has_colon (String c s) = (Ascii.eqb ":" c || has_colon s)%bool.
Proof. reflexivity. Qed.

(** Where no action id holds a colon, the key tells the action id and the
    message id apart. *)
Lemma key_of_pair_inj (p q : string * string) :
  has_colon (fst p) = false ->
  has_colon (fst q) = false ->
  key_of_pair p = key_of_pair q ->
  p = q.
Proof.
  destruct p as [a i], q as [b j]. unfold key_of_pair. simpl.
  revert b. induction a as [|c a IH]; intros [|c' b] Ha Hb Hkey; simpl in Hkey.
  - now injection Hkey as ->.
  - injection Hkey as <- _. rewrite has_colon_cons in Hb. discriminate.
  - injection Hkey as -> _. rewrite has_colon_cons in Ha. discriminate.
  - injection Hkey as -> Hkey.
    rewrite has_colon_cons in Ha, Hb.
    apply orb_false_elim in Ha, Hb.
    assert (Heq : (a, i) = (b, j)) by (apply IH; tauto).
    now injection Heq as -> ->.
Qed.

Lemma has_colon_separator (a rest : string) :
  has_colon (String.append a (String ":" rest)) = true.
Proof.
  induction a as [|c a IH]; [reflexivity|].
  cbn [String.append]. rewrite has_colon_cons, IH. apply orb_true_r.
Qed.

(** Where no message id holds a colon, the key tells them apart as well. *)
Lemma key_of_pair_inj_id (p q : string * string) :
  has_colon (snd p) = false ->
  has_colon (snd q) = false ->
  key_of_pair p = key_of_pair q ->
  p = q.
Proof.
  destruct p as [a i], q as [b j]. unfold key_of_pair. simpl.
  revert b. induction a as [|c a IH]; intros [|c' b] Hi Hj Hkey; simpl in Hkey.
  - now injection Hkey as ->.
  - exfalso. injection Hkey as _ Hkey.
    destruct b as [|c'' b]; simpl in Hkey.
    + injection Hkey as ->. rewrite has_colon_cons in Hi. discriminate.
    + injection Hkey as _ ->.
      rewrite (has_colon_separator b (String ":" j)) in Hi. discriminate.
  - exfalso. injection Hkey as _ Hkey.
    destruct a as [|c'' a]; simpl in Hkey.
    + injection Hkey as <-. rewrite has_colon_cons in Hj. discriminate.
    + injection Hkey as _ <-.
      rewrite (has_colon_separator a (String ":" i)) in Hj. discriminate.
  - injection Hkey as -> Hkey.
    assert (Heq : (a, i) = (b, j)) by (apply IH; assumption).
    now injection Heq as -> ->.
Qed.

(** Fields the helpers do not name go through unchanged. *)
Lemma entry_of_other_field (d : dict) (key k : string)
    (level description remediation diagnosis : json) :
  existsb (String.eqb k)
    [ "id"; "key"; "level"; "severity"; "description"; "summary";
      "remediation"; "diagnosis"; "detail"; "modifiers" ]%string = false ->
  dict_get (entry_of d key level description remediation diagnosis) k
  = dict_get d k.
Proof.
  intros Hother. cbn [existsb] in Hother.
  repeat (apply orb_false_elim in Hother; destruct Hother as [? Hother]).
  unfold entry_of. cbn zeta.
  repeat first
    [ rewrite dict_get_set_other by (rewrite String.eqb_sym; assumption)
    | rewrite dict_get_del_other by (rewrite String.eqb_sym; assumption) ].
  reflexivity.
Qed.

Lemma normalized_entry_key (action_id : string) (m : json) :
  is_raw_message m = true ->
  str_field "key" (normalized_entry action_id m)
  = key_of_pair (action_id, str_field "id" m).
Proof.
  destruct m as [| | | | |?|d]; try discriminate. intros _.
  unfold normalized_entry, entry_of, str_field at 1, field at 1. cbn zeta.
  dict_simpl. reflexivity.
Qed.

Lemma keys_of_entries (items : list (string * json)) :
  forallb (fun item => is_raw_action_result (snd item)) items = true ->
  map (str_field "key") (flat_map action_entries items)
  = map key_of_pair
      (flat_map
         (fun item =>
            map (fun m => (fst item, str_field "id" m)) (action_messages (snd item)))
         items).
Proof.
  induction items as [|item items IH]; intros Hraw; simpl; [reflexivity|].
  simpl in Hraw. apply andb_prop in Hraw. destruct Hraw as [Hitem Hitems].
  rewrite !map_app, (IH Hitems). f_equal.
  unfold action_entries. rewrite !map_map.
  apply map_ext_Forall.
  eapply Forall_impl; [|exact (action_messages_raw _ Hitem)].
  intros m Hm. now apply normalized_entry_key.
Qed.

(** C9, as stated, fails: the two result messages of [colliding_report]
    have distinct (action id, message id) pairs and the same key. *)
Lemma transform_raw_data_keys_collide :
  is_raw_report colliding_report = true
  /\ NoDup (report_id_pairs colliding_report)
  /\ exists e1 e2,
       transform_raw_data (interp := sample_interpreter) colliding_report
       = Ok [e1; e2]
       /\ str_field "key" e1 = "a::b::c"%string
       /\ str_field "key" e2 = "a::b::c"%string
       /\ ~ NoDup (map (str_field "key") [e1; e2]).
Proof.
  split; [reflexivity|]. split.
  - repeat constructor; simpl; intuition discriminate.
  - eexists _, _. split; [reflexivity|]. split; [reflexivity|].
    split; [reflexivity|].
    intros Hnodup. inversion Hnodup as [|? ? Hnotin _]. apply Hnotin. now left.
Qed.

(** C9, amended: on a raw report whose (action id, message id) pairs are
    pairwise distinct, and where no action id holds a colon or no message id
    does, no two entries have the same [key]. *)
Theorem transform_raw_data_keys_distinct `{Interpreter} (data : json) :
  is_raw_report data = true ->
  NoDup (report_id_pairs data) ->
  (forall p, In p (report_id_pairs data) -> has_colon (fst p) = false)
  \/ (forall p, In p (report_id_pairs data) -> has_colon (snd p) = false) ->
  exists entries,
    transform_raw_data data = Ok entries
    /\ NoDup (map (str_field "key") entries).
Proof.
  intros Hraw Hpairs Hcolon.
  eexists. split; [exact (transform_raw_data_raw _ Hraw)|].
  destruct (is_raw_report_actions _ Hraw) as [_ Hitems].
  rewrite (keys_of_entries _ Hitems). fold (report_id_pairs data).
  apply NoDup_map_NoDup_ForallPairs; [|assumption].
  intros p q Hp Hq. destruct Hcolon as [Hcolon|Hcolon].
  - apply key_of_pair_inj; auto.
  - apply key_of_pair_inj_id; auto.
Qed.

Lemma transform_raw_data_keys_distinct_witness :
  exists entries,
    transform_raw_data (interp := sample_interpreter) sample_report = Ok entries
    /\ NoDup (map (str_field "key") entries).
Proof.
  apply (@transform_raw_data_keys_distinct sample_interpreter sample_report).
  - reflexivity.
  - repeat constructor; simpl; intuition discriminate.
  - left. simpl. intros p [<-|[<-|[<-|[]]]]; reflexivity.
Defined.

(** ** The sort of collect_report_level *)

Lemma insert_desc_In (x y : Z * string) (l : list (Z * string)) :
  In y (insert_desc x l) <-> y = x \/ In y l.
Proof.
  induction l as [|z l IH]; simpl.
  - intuition.
  - destruct (fst x <? fst z); simpl; rewrite ?IH; intuition.
Qed.

Lemma sort_desc_In (y : Z * string) (l : list (Z * string)) :
  In y (sort_desc l) <-> In y l.
Proof.
  induction l as [|x l IH]; simpl; [tauto|].
  rewrite insert_desc_In, IH. intuition.
Qed.

Lemma insert_desc_head_highest (x : Z * string) (l : list (Z * string)) :
  head_highest l -> head_highest (insert_desc x l).
Proof.
  destruct l as [|z l]; simpl.
  - intros _ y [<-|[]]. lia.
  - intros Hz. destruct (fst x <? fst z) eqn:Hlt.
    + apply Z.ltb_lt in Hlt. intros y [<-|Hy]; [lia|].
      apply insert_desc_In in Hy. destruct Hy as [->|Hy]; [lia|].
      apply Hz. now right.
    + apply Z.ltb_ge in Hlt. intros y [<-|Hy]; [lia|].
      specialize (Hz y Hy). lia.
Qed.

Lemma sort_desc_head_highest (l : list (Z * string)) :
  head_highest (sort_desc l).
Proof.
  induction l as [|x l IH]; simpl; [exact I|].
  now apply insert_desc_head_highest.
Qed.

(** Equal codes keep the order they came in. *)
Lemma insert_desc_stable (x : Z * string) (l : list (Z * string)) :
  Forall (fun y => fst y <= fst x) l -> insert_desc x l = x :: l.
Proof.
  destruct l as [|z l]; simpl; [reflexivity|].
  intros Hle. inversion Hle as [|? ? Hz _]; subst.
  destruct (fst x <? fst z) eqn:Hlt; [|reflexivity].
  apply Z.ltb_lt in Hlt. lia.
Qed.

(** ** collect_report_level on a raw report *)

Lemma is_raw_message_level (m : json) :
  is_raw_message m = true ->
  py_getitem m "level" = Ok (field "level" m)
  /\ is_str (field "level" m) = true.
Proof.
  destruct m as [| | | | |?|d]; try discriminate.
  unfold is_raw_message. intros Hraw.
  repeat (apply andb_prop in Hraw; destruct Hraw as [Hraw ?]).
  destruct (is_str_field d "level") as (lv & Hlv & Hlv'); [assumption|].
  rewrite Hlv'. simpl. now rewrite Hlv.
Qed.

Lemma collect_action_levels_raw (combined : list json) (action : json) :
  is_raw_action_result action = true ->
  collect_action_levels combined action = Ok (combined ++ action_levels action)
  /\ Forall (fun level => is_str level = true) (action_levels action).
Proof.
  destruct action as [| | | | |?|d]; try discriminate.
  unfold is_raw_action_result. intros Hraw.
  apply andb_prop in Hraw. destruct Hraw as [Hresult Hmessages].
  unfold action_levels, messages_of, collect_action_levels.
  destruct (is_raw_message_level _ Hresult) as [Hlevel Hstr].
  unfold field in Hresult, Hmessages, Hlevel, Hstr |- *. unfold py_getitem at 1 3.
  destruct (dict_get d "result") as [r|]; [|discriminate]. cbn [bind].
  fold (field "level" r) in Hlevel, Hstr |- *. rewrite Hlevel. cbn [bind].
  destruct (dict_get d "messages") as [[| | | | |ms|]|]; try discriminate.
  cbn [bind py_iter].
  assert (Hms : Forall (fun m => is_raw_message m = true) ms).
  { apply Forall_forall. now apply forallb_forall. }
  split.
  - rewrite (for_each_append (fun m => py_getitem m "level") (field "level")).
    + now rewrite <- app_assoc.
    + eapply Forall_impl; [|exact Hms]. intros m Hm.
      now apply is_raw_message_level.
  - constructor; [assumption|]. apply Forall_map.
    eapply Forall_impl; [|exact Hms]. intros m Hm.
    now apply is_raw_message_level.
Qed.

Lemma for_each_collect_action_levels (items : list (string * json))
    (combined : list json) :
  forallb (fun item => is_raw_action_result (snd item)) items = true ->
  for_each (map snd items) collect_action_levels combined
  = Ok (combined ++ flat_map (fun item => action_levels (snd item)) items)
  /\ Forall (fun level => is_str level = true)
       (flat_map (fun item => action_levels (snd item)) items).
Proof.
  revert combined.
  induction items as [|item items IH]; intros combined Hraw;
    cbn [map flat_map for_each].
  - now rewrite app_nil_r.
  - simpl in Hraw. apply andb_prop in Hraw. destruct Hraw as [Hitem Hitems].
    destruct (collect_action_levels_raw combined _ Hitem) as [Hrun Hstr].
    rewrite Hrun. cbn [bind].
    destruct (IH (combined ++ action_levels (snd item)) Hitems) as [IHrun IHstr].
    rewrite IHrun, <- app_assoc. split; [reflexivity|].
    apply Forall_app. now split.
Qed.

Lemma valid_levels_strings (levels : list json) :
  Forall (fun level => is_str level = true) levels ->
  exists kept,
    valid_levels levels = Ok kept
    /\ forall s, In s kept <->
                 In (JStr s) levels /\ status_lookup STATUS_CODE s <> None.
Proof.
  induction 1 as [|level levels Hstr _ (kept & Hrun & Hkept)];
    cbn [valid_levels].
  - exists []. split; [reflexivity|]. simpl. tauto.
  - destruct level as [| | | |s| |]; try discriminate.
    cbn [in_STATUS_CODE].
    destruct (status_lookup STATUS_CODE s) as [n|] eqn:Hs;
      cbn [bind]; rewrite Hrun; cbn [bind]; eexists;
      (split; [reflexivity|]); intros s'; cbn [In]; rewrite Hkept.
    + split.
      * intros [<-|[? ?]]; [|tauto]. split; [now left|congruence].
      * intros [[Heq|?] ?]; [|tauto]. injection Heq as ->. now left.
    + split; [tauto|]. intros [[Heq|?] ?]; [|tauto].
      injection Heq as ->. contradiction.
Qed.

Lemma with_status_code_valid (levels : list string) :
  Forall (fun s => status_lookup STATUS_CODE s <> None) levels ->
  exists keyed,
    with_status_code levels = Ok keyed
    /\ map snd keyed = levels
    /\ Forall (fun p => status_lookup STATUS_CODE (snd p) = Some (fst p)) keyed.
Proof.
  induction 1 as [|s levels Hs _ (keyed & Hrun & Hsnd & Hcodes)]; simpl.
  - exists []. repeat split. constructor.
  - unfold status_code. destruct (status_lookup STATUS_CODE s) as [n|] eqn:Hn;
      [|contradiction].
    cbn [bind]. rewrite Hrun. cbn [bind]. eexists. split; [reflexivity|].
    simpl. rewrite Hsnd. split; [reflexivity|]. now constructor.
Qed.

(** On a raw report [collect_report_level] returns the levels of the table,
    and, when there is one, the first has the highest code of all. *)
Lemma collect_report_level_raw (data : json) :
  is_raw_report data = true ->
  exists combined_levels,
    collect_report_level (JObj (actions_of data)) = Ok combined_levels
    /\ (forall s, In s combined_levels <->
                  In (JStr s) (report_levels data)
                  /\ status_lookup STATUS_CODE s <> None)
    /\ match combined_levels with
       | [] => True
       | highest :: _ =>
           exists code,
             status_lookup STATUS_CODE highest = Some code
             /\ forall level c,
                  In (JStr level) (report_levels data) ->
                  status_lookup STATUS_CODE level = Some c -> c <= code
       end.
Proof.
  intros Hraw. destruct (is_raw_report_actions _ Hraw) as [_ Hitems].
  destruct (for_each_collect_action_levels _ [] Hitems) as [Hloop Hstr].
  fold (report_levels data) in Hloop, Hstr.
  destruct (valid_levels_strings Hstr) as (kept & Hvalid & Hkept).
  destruct (@with_status_code_valid kept) as (keyed & Hkeyed & Hsnd & Hcodes).
  { apply Forall_forall. intros s Hs. now apply Hkept. }
  exists (map snd (sort_desc keyed)).
  assert (Hin : forall s, In s (map snd (sort_desc keyed)) <-> In s kept).
  { intros s. rewrite <- Hsnd, !in_map_iff.
    split; intros (p & Hp & Hp'); exists p; split; auto; now apply sort_desc_In. }
  split; [|split].
  - unfold collect_report_level, sort_by_status_code_reverse. simpl.
    rewrite Hloop. simpl. rewrite Hvalid. cbn [bind]. now rewrite Hkeyed.
  - intros s. now rewrite Hin, Hkept.
  - pose proof (sort_desc_head_highest keyed) as Hhead.
    destruct (sort_desc keyed) as [|[code highest] rest] eqn:Hsort;
      cbn [map snd]; [exact I|].
    assert (Hfirst : In (code, highest) keyed).
    { apply sort_desc_In. rewrite Hsort. now left. }
    rewrite Forall_forall in Hcodes.
    exists code. split; [exact (Hcodes _ Hfirst)|].
    intros level c Hlevel Hc.
    assert (Hk : In level kept) by (apply Hkept; split; [assumption|congruence]).
    rewrite <- Hsnd in Hk. apply in_map_iff in Hk.
    destruct Hk as ([c' level'] & Heq & Hp). simpl in Heq. subst level'.
    pose proof (Hcodes _ Hp) as Hc'. cbn [fst snd] in Hc'.
    assert (c' = c) by congruence. subst c'.
    apply (Hhead (c, level)). rewrite <- Hsort. now apply sort_desc_In.
Qed.

(** ** The try block of main on a raw report *)

Lemma main_try_raw `{Interpreter} (w : World) (data : json)
    (output : OutputCollector) (combined_levels : list string) :
  runs_to_report w data ->
  is_raw_report data = true ->
  collect_report_level (JObj (actions_of data)) = Ok combined_levels ->
  main_try w output
  = (highest <- list_index combined_levels 0 ;;
     text <- gather_textual_report w ;;
     msg <- generate_report_message highest ;;
     Ok (set_entries
           (set_message (set_report (set_status output highest) text) msg)
           (Some (flat_map action_entries (actions_of data))))).
Proof.
  intros (Hverify & Hsetup & Hinstall & Hrun & Hread) Hraw Hcollect.
  destruct (is_raw_report_actions _ Hraw) as [Hget _].
  unfold main_try.
  rewrite Hverify, Hsetup, Hinstall, Hrun, Hread. cbn [bind].
  rewrite Hget. cbn [bind]. rewrite Hcollect. cbn [bind].
  destruct (list_index combined_levels 0) as [highest|e]; cbn [bind]; [|reflexivity].
  destruct (gather_textual_report w) as [text|e]; cbn [bind]; [|reflexivity].
  destruct (generate_report_message highest) as [msg|e]; cbn [bind]; [|reflexivity].
  now rewrite (transform_raw_data_raw _ Hraw).
Qed.

(** C1: on a raw report with a level of the table, the status [main] takes,
    the first of what [collect_report_level] returns, is a level of the
    report, of the table, and no level of the report that is in the table
    has a higher code; levels outside the table play no part. *)
Theorem overall_status_is_highest `{Interpreter} (data : json) :
  is_raw_report data = true ->
  (exists level,
      In (JStr level) (report_levels data)
      /\ status_lookup STATUS_CODE level <> None) ->
  exists action_results highest code rest,
    py_getitem data "actions" = Ok action_results
    /\ collect_report_level action_results = Ok (highest :: rest)
    /\ In (JStr highest) (report_levels data)
    /\ status_lookup STATUS_CODE highest = Some code
    /\ (forall level c,
          In (JStr level) (report_levels data) ->
          status_lookup STATUS_CODE level = Some c ->
          c <= code)
    /\ (forall w output text,
          runs_to_report w data ->
          gather_textual_report w = Ok text ->
          exists output',
            main_try w output = Ok output' /\ status output' = highest).
Proof.
  intros Hraw (level & Hlevel & Hknown).
  destruct (collect_report_level_raw _ Hraw) as (levels & Hcollect & Hin & Hhead).
  destruct (is_raw_report_actions _ Hraw) as [Hget _].
  destruct levels as [|highest rest].
  - exfalso. apply (Hin level). now split.
  - destruct Hhead as (code & Hcode & Hmax).
    exists (JObj (actions_of data)), highest, code, rest.
    split; [assumption|]. split; [assumption|].
    split; [apply Hin; now left|]. split; [assumption|]. split; [assumption|].
    intros w output text Hruns Htext.
    rewrite (main_try_raw output Hruns Hraw Hcollect). cbn [list_index nth_error bind].
    rewrite Htext. cbn [bind].
    destruct (generate_report_message_total _ Hcode) as (msg & Hmsg).
    rewrite Hmsg. cbn [bind]. eexists. split; reflexivity.
Qed.

Lemma overall_status_is_highest_witness :
  exists action_results highest code rest,
    py_getitem sample_report "actions" = Ok action_results
    /\ collect_report_level action_results = Ok (highest :: rest)
    /\ In (JStr highest) (report_levels sample_report)
    /\ status_lookup STATUS_CODE highest = Some code
    /\ (forall level c,
          In (JStr level) (report_levels sample_report) ->
          status_lookup STATUS_CODE level = Some c ->
          c <= code)
    /\ (forall w output text,
          runs_to_report w sample_report ->
          gather_textual_report w = Ok text ->
          exists output',
            main_try (interp := sample_interpreter) w output = Ok output'
            /\ status output' = highest).
Proof.
  apply (@overall_status_is_highest sample_interpreter sample_report).
  - reflexivity.
  - exists "ERROR"%string. split; [simpl; tauto | discriminate].
Defined.

(** C4: on a raw report none of whose levels is in the table, a report of
    no action for one, [collect_report_level] returns the empty list and the
    [try] block of [main] raises an [IndexError] where it takes the first
    level: no status is set. *)
Theorem no_valid_level_is_fatal `{Interpreter} (w : World) (data : json)
    (output : OutputCollector) :
  runs_to_report w data ->
  is_raw_report data = true ->
  (forall level,
      In (JStr level) (report_levels data) ->
      status_lookup STATUS_CODE level = None) ->
  exists action_results,
    py_getitem data "actions" = Ok action_results
    /\ collect_report_level action_results = Ok []
    /\ main_try w output = Raise IndexError.
Proof.
  intros Hruns Hraw Hnone.
  destruct (collect_report_level_raw _ Hraw) as (levels & Hcollect & Hin & _).
  destruct (is_raw_report_actions _ Hraw) as [Hget _].
  destruct levels as [|highest rest].
  - exists (JObj (actions_of data)). split; [assumption|]. split; [assumption|].
    now rewrite (main_try_raw output Hruns Hraw Hcollect).
  - exfalso. destruct (Hin highest) as [Hlevel _].
    destruct Hlevel as [Hlevel Hknown]; [now left|].
    apply Hknown. now apply Hnone.
Qed.

Lemma no_valid_level_is_fatal_witness :
  exists action_results,
    py_getitem empty_report "actions" = Ok action_results
    /\ collect_report_level action_results = Ok []
    /\ main_try (interp := sample_interpreter) (sample_world empty_report)
         (OutputCollector_init "" "" "" None)
       = Raise IndexError.
Proof.
  apply (@no_valid_level_is_fatal sample_interpreter).
  - repeat split.
  - reflexivity.
  - intros level [].
Defined.

Lemma transform_raw_data_length_witness :
  exists new_data,
    transform_raw_data (interp := sample_interpreter) sample_report = Ok new_data
    /\ List.length new_data
       = list_sum
           (map (fun item => (1 + List.length (messages_of (snd item)))%nat)
              (actions_of sample_report)).
Proof.
  apply (@transform_raw_data_length sample_interpreter sample_report).
  reflexivity.
Defined.

Lemma transform_raw_data_order_witness :
  exists groups,
    transform_raw_data (interp := sample_interpreter) sample_report
    = Ok (List.concat groups)
    /\ Forall2
         (fun item group =>
            Forall2
              (fun m entry =>
                 apply_message_transform (interp := sample_interpreter) m (fst item)
                 = Ok entry)
              (messages_of (snd item) ++ [field "result" (snd item)])
              group)
         (actions_of sample_report) groups.
Proof.
  apply (@transform_raw_data_order sample_interpreter sample_report).
  reflexivity.
Defined.

Lemma apply_message_transform_entry_witness :
  exists entry,
    apply_message_transform (interp := sample_interpreter)
      (sample_message "m1" "WARNING") "A1"
    = Ok (JObj entry)
    /\ dict_get entry "key" = Some (JStr "A1::m1")
    /\ dict_get entry "id" = None
    /\ dict_get entry "severity" = Some (JStr "WARNING")
    /\ dict_get entry "level" = None
    /\ dict_get entry "summary" = Some (JStr "What was found")
    /\ dict_get entry "description" = None
    /\ dict_get entry "detail"
       = Some (JObj [ ("remediation"%string,
                       JObj [("context"%string, JStr "What to do")]);
                      ("diagnosis"%string,
                       JObj [("context"%string, JStr "Why")]) ])
    /\ dict_get entry "remediation" = None
    /\ dict_get entry "diagnosis" = None
    /\ dict_get entry "modifiers" = Some (JList []).
Proof.
  apply (@apply_message_transform_entry sample_interpreter _ "A1" "m1");
    reflexivity.
Defined.

(** ** The examples of the specification *)

Example sample_run :
  main (interp := sample_interpreter) (sample_world sample_report)
  = Ok (JObj
          [ ("status"%string, JStr "ERROR");
            ("message"%string, JStr MESSAGE_CANNOT_PROCEED);
            ("report"%string, JStr "The textual report");
            ("report_json"%string,
             JObj [ ("tasks_format_version"%string, JStr "1.0");
                    ("tasks_format_id"%string, JStr "oamg-format");
                    ("entries"%string,
                     JList [ normalized_entry "A1" (sample_message "m1" "WARNING");
                             normalized_entry "A1" (sample_message "r" "SUCCESS");
                             normalized_entry "A2" (sample_message "r" "ERROR") ]) ]) ]).
Proof. reflexivity. Qed.

Example sample_collect_report_level :
  collect_report_level (field "actions" sample_report)
  = Ok ["ERROR"; "WARNING"; "SUCCESS"]%string.
Proof. reflexivity. Qed.

(** Levels outside the table are left out; equal levels keep their order. *)
Example sample_valid_levels :
  valid_levels [JStr "INFO"; JStr "FATAL"; JInt 202; JStr "ERROR"; JNull]
  = Ok ["INFO"; "ERROR"]%string.
Proof. reflexivity. Qed.

(** A level that cannot be hashed stops [collect_report_level]. *)
Example sample_unhashable_level :
  valid_levels [JStr "INFO"; JList []] = Raise (TypeError OpHash (JList [])).
Proof. reflexivity. Qed.

Example sample_entry :
  normalized_entry "A1" (sample_message "m1" "WARNING")
  = JObj [ ("title"%string, JStr "A title");
           ("key"%string, JStr "A1::m1");
           ("severity"%string, JStr "WARNING");
           ("summary"%string, JStr "What was found");
           ("detail"%string,
            detail_of (JStr "What to do") (JStr "Why"));
           ("modifiers"%string, JList []) ].
Proof. reflexivity. Qed.

(** * More of the script *)

(** ** collect_report_level on any input *)

Lemma insert_desc_sorted (x : Z * string) (l : list (Z * string)) :
  StronglySorted (fun a b => fst b <= fst a) l ->
  StronglySorted (fun a b => fst b <= fst a) (insert_desc x l).
Proof.
  induction 1 as [|y rest Hsorted IH Hy]; simpl.
  - repeat constructor.
  - destruct (fst x <? fst y) eqn:Hlt.
    + apply Z.ltb_lt in Hlt. constructor; [assumption|].
      apply Forall_forall. intros z Hz. apply insert_desc_In in Hz.
      destruct Hz as [->|Hz]; [lia|].
      rewrite Forall_forall in Hy. auto.
    + apply Z.ltb_ge in Hlt. constructor; [now constructor|].
      constructor; [assumption|].
      eapply Forall_impl; [|exact Hy]. simpl. intros z Hz. lia.
Qed.

Lemma sort_desc_sorted (l : list (Z * string)) :
  StronglySorted (fun a b => fst b <= fst a) (sort_desc l).
Proof.
  induction l as [|x l IH]; simpl; [constructor|].
  now apply insert_desc_sorted.
Qed.

Lemma insert_desc_perm (x : Z * string) (l : list (Z * string)) :
  Permutation (insert_desc x l) (x :: l).
Proof.
  induction l as [|y l IH]; simpl; [reflexivity|].
  destruct (fst x <? fst y); [|reflexivity].
  rewrite IH. apply perm_swap.
Qed.

Lemma sort_desc_perm (l : list (Z * string)) : Permutation (sort_desc l) l.
Proof.
  induction l as [|x l IH]; simpl; [reflexivity|].
  now rewrite insert_desc_perm, IH.
Qed.

Lemma with_status_code_inv (levels : list string) (keyed : list (Z * string)) :
  with_status_code levels = Ok keyed ->
  map snd keyed = levels
  /\ Forall (fun p => status_lookup STATUS_CODE (snd p) = Some (fst p)) keyed.
Proof.
  revert keyed. induction levels as [|s levels IH]; intros keyed; cbn [with_status_code].
  - intros [= <-]. split; constructor.
  - unfold status_code.
    destruct (status_lookup STATUS_CODE s) as [n|] eqn:Hn; cbn [bind]; [|discriminate].
    destruct (with_status_code levels) as [rest|]; cbn [bind]; [|discriminate].
    intros [= <-]. destruct (IH rest eq_refl) as [Hsnd Hcodes].
    cbn [map snd]. rewrite Hsnd. split; [reflexivity|]. now constructor.
Qed.

Lemma sorted_by_code_sort_desc (keyed : list (Z * string)) :
  Forall (fun p => status_lookup STATUS_CODE (snd p) = Some (fst p)) keyed ->
  sorted_by_code (map snd (sort_desc keyed)).
Proof.
  intros Hcodes. exists (map fst (sort_desc keyed)). split.
  - assert (Hsorted : Forall
              (fun p => status_lookup STATUS_CODE (snd p) = Some (fst p))
              (sort_desc keyed)).
    { rewrite Forall_forall in *. intros p Hp. apply Hcodes.
      now apply sort_desc_In. }
    induction Hsorted; cbn [map]; constructor; auto.
  - pose proof (sort_desc_sorted keyed) as Hsorted.
    induction Hsorted as [|p rest _ IH Hp]; cbn [map]; constructor; [assumption|].
    now apply Forall_map.
Qed.

(** X1: whatever [collect_report_level] is given, a list it returns holds
    only levels of the table, the highest code first. *)
Theorem collect_report_level_sorted (action_results : json) (levels : list string) :
  collect_report_level action_results = Ok levels ->
  sorted_by_code levels.
Proof.
  unfold collect_report_level, sort_by_status_code_reverse.
  destruct (py_values action_results) as [values|]; cbn [bind]; [|discriminate].
  destruct (for_each values collect_action_levels []) as [combined|];
    cbn [bind]; [|discriminate].
  destruct (valid_levels combined) as [kept|]; cbn [bind]; [|discriminate].
  destruct (with_status_code kept) as [keyed|] eqn:Hkeyed; cbn [bind]; [|discriminate].
  intros [= <-]. apply sorted_by_code_sort_desc.
  now apply (with_status_code_inv kept).
Qed.

Lemma collect_report_level_sorted_witness :
  sorted_by_code ["ERROR"; "WARNING"; "SUCCESS"]%string.
Proof.
  apply (@collect_report_level_sorted (field "actions" sample_report)).
  reflexivity.
Defined.

Lemma has_level_getitem (m : json) :
  has_level m = true -> py_getitem m "level" = Ok (field "level" m).
Proof.
  destruct m as [| | | | |?|d]; try discriminate.
  unfold has_level, py_getitem, field.
  now destruct (dict_get d "level").
Qed.

Lemma collect_action_levels_leveled (combined : list json) (action : json) :
  is_leveled_action action = true ->
  collect_action_levels combined action = Ok (combined ++ action_levels action).
Proof.
  destruct action as [| | | | |?|d]; try discriminate.
  unfold is_leveled_action. intros Hshape.
  apply andb_prop in Hshape. destruct Hshape as [Hresult Hmessages].
  pose proof (has_level_getitem _ Hresult) as Hlevel.
  unfold action_levels, messages_of, collect_action_levels.
  unfold field in Hresult, Hmessages, Hlevel |- *. unfold py_getitem at 1 3.
  destruct (dict_get d "result") as [r|]; [|discriminate]. cbn [bind].
  fold (field "level" r) in Hlevel |- *. rewrite Hlevel. cbn [bind].
  destruct (dict_get d "messages") as [[| | | | |ms|]|]; try discriminate.
  cbn [bind py_iter].
  rewrite (for_each_append (fun m => py_getitem m "level") (field "level")).
  - now rewrite <- app_assoc.
  - apply Forall_forall. intros m Hm. apply has_level_getitem.
    rewrite forallb_forall in Hmessages. auto.
Qed.

Lemma for_each_collect_leveled (actions : dict) (combined : list json) :
  forallb (fun item => is_leveled_action (snd item)) actions = true ->
  for_each (map snd actions) collect_action_levels combined
  = Ok (combined ++ actions_levels actions).
Proof.
  unfold actions_levels. revert combined.
  induction actions as [|item actions IH]; intros combined Hshape;
    cbn [map flat_map for_each].
  - now rewrite app_nil_r.
  - simpl in Hshape. apply andb_prop in Hshape. destruct Hshape as [Hitem Hitems].
    rewrite (collect_action_levels_leveled combined _ Hitem). cbn [bind].
    rewrite (IH _ Hitems), <- app_assoc. reflexivity.
Qed.

Lemma valid_levels_hashable (levels : list json) :
  forallb is_hashable levels = true ->
  valid_levels levels = Ok (known_levels levels).
Proof.
  induction levels as [|level levels IH]; cbn [forallb valid_levels]; [reflexivity|].
  intros Hhash. apply andb_prop in Hhash. destruct Hhash as [Hlevel Hlevels].
  rewrite (IH Hlevels). unfold known_levels. cbn [flat_map].
  destruct level as [| | | |s| |]; try discriminate; cbn [in_STATUS_CODE bind];
    try reflexivity.
  now destruct (status_lookup STATUS_CODE s).
Qed.

Lemma valid_levels_unhashable (before after : list json) (v : json) :
  forallb is_hashable before = true ->
  is_hashable v = false ->
  valid_levels (before ++ v :: after) = Raise (TypeError OpHash v).
Proof.
  intros Hbefore Hv.
  induction before as [|level before IH]; cbn [app valid_levels].
  - destruct v; try discriminate; reflexivity.
  - simpl in Hbefore. apply andb_prop in Hbefore. destruct Hbefore as [Hlevel Hrest].
    rewrite (IH Hrest).
    destruct level as [| | | |s| |]; try discriminate; cbn [in_STATUS_CODE bind];
      try reflexivity.
    now destruct (status_lookup STATUS_CODE s).
Qed.

Lemma known_levels_known (levels : list json) :
  Forall (fun s => status_lookup STATUS_CODE s <> None) (known_levels levels).
Proof.
  unfold known_levels. induction levels as [|level levels IH]; cbn [flat_map].
  - constructor.
  - apply Forall_app. split; [|assumption].
    destruct level as [| | | |s| |]; try constructor.
    destruct (status_lookup STATUS_CODE s) eqn:Hs; repeat constructor. congruence.
Qed.

(** X2: when every action has a [level] in its [result] and in each of its
    [messages], and every level can be hashed, [collect_report_level] returns a
    rearrangement of the levels that are names of the table: none is lost,
    none is repeated, and nothing else comes in. *)
Theorem collect_report_level_permutation (actions : dict) :
  forallb (fun item => is_leveled_action (snd item)) actions = true ->
  forallb is_hashable (actions_levels actions) = true ->
  exists levels,
    collect_report_level (JObj actions) = Ok levels
    /\ Permutation levels (known_levels (actions_levels actions)).
Proof.
  intros Hshape Hhash.
  destruct (with_status_code_valid (known_levels_known (actions_levels actions)))
    as (keyed & Hkeyed & Hsnd & _).
  exists (map snd (sort_desc keyed)). split.
  - unfold collect_report_level, sort_by_status_code_reverse. cbn [py_values bind].
    rewrite (for_each_collect_leveled _ [] Hshape). cbn [bind app].
    rewrite (valid_levels_hashable _ Hhash). cbn [bind].
    now rewrite Hkeyed.
  - rewrite <- Hsnd. apply Permutation_map, sort_desc_perm.
Qed.

Lemma collect_report_level_permutation_witness :
  exists levels,
    collect_report_level (JObj (actions_of sample_report)) = Ok levels
    /\ Permutation levels (known_levels (actions_levels (actions_of sample_report))).
Proof.
  apply (@collect_report_level_permutation (actions_of sample_report));
    reflexivity.
Defined.

(** X3: a level that is a list or a dictionary is not left out as a name
    the table does not have: the first one stops [collect_report_level] with
    a [TypeError]. *)
Theorem collect_report_level_unhashable (actions : dict)
    (before after : list json) (v : json) :
  forallb (fun item => is_leveled_action (snd item)) actions = true ->
  actions_levels actions = before ++ v :: after ->
  forallb is_hashable before = true ->
  is_hashable v = false ->
  collect_report_level (JObj actions) = Raise (TypeError OpHash v).
Proof.
  intros Hshape Hlevels Hbefore Hv.
  unfold collect_report_level. cbn [py_values bind].
  rewrite (for_each_collect_leveled _ [] Hshape). cbn [bind app].
  rewrite Hlevels, (valid_levels_unhashable before after v Hbefore Hv). reflexivity.
Qed.

Lemma collect_report_level_unhashable_witness :
  collect_report_level
    (JObj [ ("A1"%string,
             JObj [ ("result"%string, JObj [("level"%string, JStr "INFO")]);
                    ("messages"%string,
                     JList [ JObj [("level"%string, JList [JStr "ERROR"])] ]) ]) ])
  = Raise (TypeError OpHash (JList [JStr "ERROR"])).
Proof.
  apply (@collect_report_level_unhashable _ [JStr "INFO"] []); reflexivity.
Defined.

(** ** generate_report_message by name *)

Lemma status_lookup_In (table : list (string * Z)) (name : string) (code : Z) :
  status_lookup table name = Some code -> In (name, code) table.
Proof.
  induction table as [|[k n] table IH]; simpl; [discriminate|].
  destruct (String.eqb k name) eqn:Hk.
  - apply String.eqb_eq in Hk. intros [= <-]. subst k. now left.
  - intros Hrest. right. auto.
Qed.

(** X4: which levels give which message: SUCCESS and INFO the first,
    WARNING the second, SKIP, OVERRIDABLE and ERROR the third. *)
Theorem generate_report_message_by_name (level : string) :
  (generate_report_message level = Ok MESSAGE_READY
   <-> In level ["SUCCESS"; "INFO"]%string)
  /\ (generate_report_message level = Ok MESSAGE_WARNINGS
      <-> level = "WARNING"%string)
  /\ (generate_report_message level = Ok MESSAGE_CANNOT_PROCEED
      <-> In level ["SKIP"; "OVERRIDABLE"; "ERROR"]%string).
Proof.
  assert (Hcases :
            status_lookup STATUS_CODE level = None
            \/ In level
                 ["SUCCESS"; "INFO"; "WARNING"; "SKIP"; "OVERRIDABLE"; "ERROR"]%string).
  { destruct (status_lookup STATUS_CODE level) as [code|] eqn:Hcode; [right|now left].
    apply status_lookup_In in Hcode. simpl in Hcode.
    repeat (destruct Hcode as [[= <- _]|Hcode]; [simpl; tauto|]).
    destruct Hcode. }
  destruct Hcases as [Hnone|Hin].
  - assert (Hraise : generate_report_message level = Raise (KeyError level)).
    { unfold generate_report_message, status_code. now rewrite Hnone. }
    rewrite Hraise.
    repeat split; try discriminate; intros Hlevel; exfalso;
      simpl in Hlevel;
      repeat (destruct Hlevel as [<-|Hlevel]; [discriminate Hnone|]);
      try contradiction; subst; discriminate Hnone.
  - simpl in Hin.
    repeat (destruct Hin as [<-|Hin];
            [vm_compute; repeat split; intros Hx;
             first [ discriminate Hx
                   | reflexivity
                   | tauto
                   | repeat (destruct Hx as [Hx|Hx]; try discriminate Hx);
                     contradiction ] |]).
    destruct Hin.
Qed.


(** ** The helpers of apply_message_transform *)

Lemma dict_get_set (d : dict) (k k' : string) (v : json) :
  dict_get (dict_set d k v) k'
  = if String.eqb k' k then Some v else dict_get d k'.
Proof.
  destruct (String.eqb k' k) eqn:Hk.
  - apply String.eqb_eq in Hk. subst k'. apply dict_get_set_same.
  - apply dict_get_set_other. now rewrite String.eqb_sym.
Qed.

Lemma dict_get_del (d : dict) (k k' : string) :
  dict_get (dict_del d k) k'
  = if String.eqb k' k then None else dict_get d k'.
Proof.
  destruct (String.eqb k' k) eqn:Hk.
  - apply String.eqb_eq in Hk. subst k'. apply dict_get_del_same.
  - apply dict_get_del_other. now rewrite String.eqb_sym.
Qed.

(** X6: [_rename_dictionary_key] on a dictionary raises a [KeyError] of the
    old key when it is missing; otherwise the new key holds what the old one
    held, whatever the new key held before is lost, the old key is gone
    unless it is the new one, and every other key is as it was. *)
Theorem _rename_dictionary_key_lookup (d : dict)
    (new_key old_key : string) :
  match dict_get d old_key with
  | None =>
      _rename_dictionary_key (JObj d) new_key old_key = Raise (KeyError old_key)
  | Some v =>
      exists d',
        _rename_dictionary_key (JObj d) new_key old_key = Ok (JObj d')
        /\ forall k,
             dict_get d' k
             = if String.eqb k new_key then Some v
               else if String.eqb k old_key then None
               else dict_get d k
  end.
Proof.
  destruct (dict_get d old_key) as [v|] eqn:Hold.
  - eexists. split; [exact (_rename_dictionary_key_dict d new_key old_key Hold)|].
    intros k. now rewrite dict_get_set, dict_get_del.
  - unfold _rename_dictionary_key, deepcopy. simpl. now rewrite Hold.
Qed.

(** X7: renaming a key to a name the dictionary does not have and back
    gives a dictionary with the same value at every key. *)
Theorem _rename_dictionary_key_back (d : dict)
    (new_key old_key : string) (v : json) :
  dict_get d old_key = Some v ->
  dict_get d new_key = None ->
  exists d1 d2,
    _rename_dictionary_key (JObj d) new_key old_key = Ok (JObj d1)
    /\ _rename_dictionary_key (JObj d1) old_key new_key = Ok (JObj d2)
    /\ forall k, dict_get d2 k = dict_get d k.
Proof.
  intros Hold Hnew.
  assert (Hne : String.eqb old_key new_key = false).
  { destruct (String.eqb old_key new_key) eqn:Heq; [|reflexivity].
    apply String.eqb_eq in Heq. congruence. }
  eexists _, _. split; [exact (_rename_dictionary_key_dict d new_key old_key Hold)|].
  split.
  - apply _rename_dictionary_key_dict. apply dict_get_set_same.
  - intros k. rewrite !dict_get_set, !dict_get_del, dict_get_set, dict_get_del.
    destruct (String.eqb k old_key) eqn:Hk1.
    + apply String.eqb_eq in Hk1. now subst k.
    + destruct (String.eqb k new_key) eqn:Hk2; [|reflexivity].
      apply String.eqb_eq in Hk2. now subst k.
Qed.

Lemma _rename_dictionary_key_back_witness :
  exists d1 d2,
    _rename_dictionary_key
      (JObj [("level"%string, JStr "INFO"); ("id"%string, JStr "m1")])
      "severity" "level"
    = Ok (JObj d1)
    /\ _rename_dictionary_key (JObj d1)
         "level" "severity"
       = Ok (JObj d2)
    /\ forall k,
         dict_get d2 k
         = dict_get [("level"%string, JStr "INFO"); ("id"%string, JStr "m1")] k.
Proof.
  apply (@_rename_dictionary_key_back
           [("level"%string, JStr "INFO"); ("id"%string, JStr "m1")]
           "severity" "level" (JStr "INFO"));
    reflexivity.
Defined.

(** ** apply_message_transform on any dictionary *)

Lemma first_missing_field_none (d : dict) :
  first_missing_field d = None ->
  exists id level description remediation diagnosis,
    dict_get d "id" = Some id
    /\ dict_get d "level" = Some level
    /\ dict_get d "description" = Some description
    /\ dict_get d "remediation" = Some remediation
    /\ dict_get d "diagnosis" = Some diagnosis.
Proof.
  unfold first_missing_field. cbn [find].
  destruct (dict_get d "id"); [|discriminate].
  destruct (dict_get d "level"); [|discriminate].
  destruct (dict_get d "description"); [|discriminate].
  destruct (dict_get d "remediation"); [|discriminate].
  destruct (dict_get d "diagnosis"); [|discriminate].
  intros _. now eexists _, _, _, _, _.
Qed.

Lemma _rename_dictionary_key_missing (d : dict) (new_key old_key : string) :
  dict_get d old_key = None ->
  _rename_dictionary_key (JObj d) new_key old_key = Raise (KeyError old_key).
Proof.
  intros Hold. unfold _rename_dictionary_key, deepcopy. simpl. now rewrite Hold.
Qed.

Lemma apply_message_transform_missing `{Interpreter} (d : dict)
    (action_id k : string) :
  first_missing_field d = Some k ->
  apply_message_transform (JObj d) action_id = Raise (KeyError k).
Proof.
  unfold first_missing_field. cbn [find]. unfold apply_message_transform.
  destruct (dict_get d "id") as [id|] eqn:Hid.
  2:{ intros [= <-]. unfold _generate_message_key. simpl. now rewrite Hid. }
  rewrite (_generate_message_key_dict d action_id Hid). cbn [bind].
  destruct (dict_get d "level") as [level|] eqn:Hlevel.
  2:{ intros [= <-]. rewrite _rename_dictionary_key_missing; [reflexivity|].
      now dict_simpl. }
  erewrite _rename_dictionary_key_dict by (dict_simpl; exact Hlevel). cbn [bind].
  destruct (dict_get d "description") as [description|] eqn:Hdesc.
  2:{ intros [= <-]. rewrite _rename_dictionary_key_missing; [reflexivity|].
      now dict_simpl. }
  erewrite _rename_dictionary_key_dict by (dict_simpl; exact Hdesc). cbn [bind].
  unfold _generate_detail_block, deepcopy. cbn [py_getitem]. dict_simpl.
  destruct (dict_get d "remediation") as [remediation|] eqn:Hrem.
  2:{ now intros [= <-]. }
  cbn [bind]. simpl set_context. cbn [bind]. dict_simpl.
  destruct (dict_get d "diagnosis") as [diagnosis|] eqn:Hdiag.
  2:{ now intros [= <-]. }
  discriminate.
Qed.

(** X8: on a dictionary, [apply_message_transform] returns an entry when
    the five fields are there, and otherwise raises a [KeyError] of the
    first that is missing, in the order [id], [level], [description],
    [remediation], [diagnosis]. *)
Theorem apply_message_transform_first_missing `{Interpreter} (d : dict)
    (action_id : string) :
  match first_missing_field d with
  | Some k => apply_message_transform (JObj d) action_id = Raise (KeyError k)
  | None => exists entry, apply_message_transform (JObj d) action_id = Ok (JObj entry)
  end.
Proof.
  destruct (first_missing_field d) as [k|] eqn:Hmissing.
  - now apply apply_message_transform_missing.
  - destruct (first_missing_field_none _ Hmissing)
      as (id & level & description & remediation & diagnosis
          & Hid & Hlevel & Hdesc & Hrem & Hdiag).
    eexists.
    exact (apply_message_transform_dict d action_id Hid Hlevel Hdesc Hrem Hdiag).
Qed.

(** X9: a field of the message that the transform does not name is in the
    entry with the value it had. *)
Theorem apply_message_transform_other_fields `{Interpreter} (d : dict)
    (action_id k : string) :
  first_missing_field d = None ->
  existsb (String.eqb k)
    [ "id"; "key"; "level"; "severity"; "description"; "summary";
      "remediation"; "diagnosis"; "detail"; "modifiers" ]%string = false ->
  exists entry,
    apply_message_transform (JObj d) action_id = Ok (JObj entry)
    /\ dict_get entry k = dict_get d k.
Proof.
  intros Hmissing Hother.
  destruct (first_missing_field_none _ Hmissing)
    as (id & level & description & remediation & diagnosis
        & Hid & Hlevel & Hdesc & Hrem & Hdiag).
  eexists. split.
  - exact (apply_message_transform_dict d action_id Hid Hlevel Hdesc Hrem Hdiag).
  - now apply entry_of_other_field.
Qed.

Lemma apply_message_transform_other_fields_witness :
  exists entry,
    apply_message_transform (interp := sample_interpreter)
      (sample_message "m1" "WARNING") "A1"
    = Ok (JObj entry)
    /\ dict_get entry "title" = Some (JStr "A title").
Proof.
  apply (@apply_message_transform_other_fields sample_interpreter
           [ ("id"%string, JStr "m1");
             ("level"%string, JStr "WARNING");
             ("title"%string, JStr "A title");
             ("description"%string, JStr "What was found");
             ("remediation"%string, JStr "What to do");
             ("diagnosis"%string, JStr "Why") ]
           "A1" "title");
    reflexivity.
Defined.

(** X10: an entry cannot be transformed again: it has no [id], so a second
    [apply_message_transform] raises a [KeyError] of [id]. *)
Theorem apply_message_transform_not_chainable `{Interpreter} (m entry : json)
    (action_id action_id' : string) :
  apply_message_transform m action_id = Ok entry ->
  apply_message_transform entry action_id' = Raise (KeyError "id").
Proof.
  destruct m as [| | | | |?|d]; try discriminate.
  destruct (first_missing_field d) as [k|] eqn:Hmissing.
  - rewrite (apply_message_transform_missing _ _ Hmissing). discriminate.
  - destruct (first_missing_field_none _ Hmissing)
      as (id & level & description & remediation & diagnosis
          & Hid & Hlevel & Hdesc & Hrem & Hdiag).
    rewrite (apply_message_transform_dict d action_id Hid Hlevel Hdesc Hrem Hdiag).
    intros [= <-]. apply apply_message_transform_missing.
    unfold first_missing_field, entry_of. cbn [find]. cbn zeta.
    now dict_simpl.
Qed.

Lemma apply_message_transform_not_chainable_witness :
  apply_message_transform (interp := sample_interpreter)
    (normalized_entry "A1" (sample_message "m1" "WARNING")) "A1"
  = Raise (KeyError "id").
Proof.
  apply (@apply_message_transform_not_chainable sample_interpreter
           (sample_message "m1" "WARNING") _ "A1" "A1").
  reflexivity.
Defined.

(** ** The severities of the entries *)

Lemma normalized_entry_severity (action_id : string) (m : json) :
  is_raw_message m = true ->
  field "severity" (normalized_entry action_id m) = field "level" m.
Proof.
  destruct m as [| | | | |?|d]; try discriminate.
  unfold is_raw_message. intros Hraw.
  repeat (apply andb_prop in Hraw; destruct Hraw as [Hraw ?]).
  destruct (is_str_field d "level") as (lv & Hlv & Hlv'); [assumption|].
  unfold normalized_entry, entry_of, field at 1. cbn zeta. now dict_simpl.
Qed.

Lemma action_entries_severities (item : string * json) :
  is_raw_action_result (snd item) = true ->
  Permutation (map (field "severity") (action_entries item))
    (action_levels (snd item)).
Proof.
  intros Hraw. unfold action_entries. rewrite map_map.
  rewrite (map_ext_Forall _ (field "level")).
  - unfold action_messages, action_levels. rewrite map_app. cbn [map].
    symmetry. apply Permutation_cons_append.
  - eapply Forall_impl; [|exact (action_messages_raw _ Hraw)].
    intros m Hm. now apply normalized_entry_severity.
Qed.

(** X11: on a raw report, the severities of the entries are the levels
    [collect_report_level] goes through, each as many times, in another
    order: the status is taken over what the entries show. *)
Theorem transform_raw_data_severities `{Interpreter} (data : json) :
  is_raw_report data = true ->
  exists entries,
    transform_raw_data data = Ok entries
    /\ Permutation (map (field "severity") entries) (report_levels data).
Proof.
  intros Hraw. eexists. split; [exact (transform_raw_data_raw _ Hraw)|].
  destruct (is_raw_report_actions _ Hraw) as [_ Hitems].
  unfold report_levels.
  induction (actions_of data) as [|item items IH]; cbn [flat_map]; [constructor|].
  simpl in Hitems. apply andb_prop in Hitems. destruct Hitems as [Hitem Hitems].
  rewrite map_app. apply Permutation_app; [|now apply IH].
  now apply action_entries_severities.
Qed.

Lemma transform_raw_data_severities_witness :
  exists entries,
    transform_raw_data (interp := sample_interpreter) sample_report = Ok entries
    /\ Permutation (map (field "severity") entries) (report_levels sample_report).
Proof.
  apply (@transform_raw_data_severities sample_interpreter sample_report).
  reflexivity.
Defined.

(** ** OutputCollector.to_dict, called again *)

(** X12: a second [to_dict] returns the same dictionary and leaves the
    collector as the first did. *)
Theorem to_dict_twice (self : OutputCollector) :
  to_dict (snd (to_dict self)) = to_dict self.
Proof.
  destruct self as [st msg rep ver fid [[|e es]|] rj]; reflexivity.
Qed.

(** X13: [to_dict] never takes [report_json] back: once a collector with
    entries has been through it, emptying [entries] leaves the next
    [to_dict] with the [report_json] of the first. *)
Theorem to_dict_keeps_report_json (self : OutputCollector) (e : json)
    (es : list json) (later : option (list json)) :
  entries self = Some (e :: es) ->
  later = None \/ later = Some [] ->
  py_getitem (fst (to_dict (set_entries (snd (to_dict self)) later))) "report_json"
  = py_getitem (fst (to_dict self)) "report_json"
  /\ py_getitem (fst (to_dict self)) "report_json"
     = Ok (JObj [ ("tasks_format_version"%string, JStr (tasks_format_version self));
                  ("tasks_format_id"%string, JStr (tasks_format_id self));
                  ("entries"%string, JList (e :: es)) ]).
Proof.
  destruct self as [st msg rep ver fid ents rj]. simpl.
  intros -> [->| ->]; split; reflexivity.
Qed.

Lemma to_dict_keeps_report_json_witness :
  py_getitem
    (fst (to_dict
            (set_entries
               (snd (to_dict (OutputCollector_init "" "" "" (Some [JStr "non-empty"]))))
               None)))
    "report_json"
  = py_getitem
      (fst (to_dict (OutputCollector_init "" "" "" (Some [JStr "non-empty"]))))
      "report_json"
  /\ py_getitem
       (fst (to_dict (OutputCollector_init "" "" "" (Some [JStr "non-empty"]))))
       "report_json"
     = Ok (JObj [ ("tasks_format_version"%string, JStr "1.0");
                  ("tasks_format_id"%string, JStr "oamg-format");
                  ("entries"%string, JList [JStr "non-empty"]) ]).
Proof.
  apply (@to_dict_keeps_report_json
           (OutputCollector_init "" "" "" (Some [JStr "non-empty"]))
           (JStr "non-empty") [] None);
    [reflexivity | now left].
Defined.

(** ** What main prints, whatever the report *)

Lemma for_each_append_length {A : Type} (f : A -> result json) (xs : list A)
    (acc acc' : list json) :
  for_each xs (fun acc x => entry <- f x ;; Ok (acc ++ [entry])) acc = Ok acc' ->
  List.length acc' = (List.length acc + List.length xs)%nat.
Proof.
  revert acc. induction xs as [|x xs IH]; intros acc; cbn [for_each].
  - intros [= <-]. simpl. lia.
  - destruct (f x) as [entry|]; cbn [bind]; [|discriminate].
    intros Hrest. rewrite (IH _ Hrest), length_app. simpl. lia.
Qed.

Lemma collect_report_level_no_action :
  collect_report_level (JObj []) = Ok [].
Proof. reflexivity. Qed.

Lemma collect_report_level_head_known (action_results : json) (highest : string)
    (rest : list string) :
  collect_report_level action_results = Ok (highest :: rest) ->
  status_lookup STATUS_CODE highest <> None.
Proof.
  unfold collect_report_level, sort_by_status_code_reverse.
  destruct (py_values action_results) as [values|]; cbn [bind]; [|discriminate].
  destruct (for_each values collect_action_levels []) as [combined|];
    cbn [bind]; [|discriminate].
  destruct (valid_levels combined) as [kept|]; cbn [bind]; [|discriminate].
  destruct (with_status_code kept) as [keyed|] eqn:Hkeyed; cbn [bind]; [|discriminate].
  intros [= Hsorted].
  destruct (with_status_code_inv kept Hkeyed) as [_ Hcodes].
  destruct (sort_desc keyed) as [|p sorted] eqn:Hsort; [discriminate|].
  injection Hsorted as <- _.
  rewrite Forall_forall in Hcodes.
  rewrite (Hcodes p); [discriminate|].
  apply sort_desc_In. rewrite Hsort. now left.
Qed.

Lemma generate_report_message_not_empty (level msg : string) :
  generate_report_message level = Ok msg -> msg <> EmptyString.
Proof.
  unfold generate_report_message, status_code.
  destruct (status_lookup STATUS_CODE level) as [code|]; [|discriminate].
  simpl.
  destruct (code <? 51) eqn:Hlt, (code =? 51) eqn:Heq, (51 <? code) eqn:Hgt;
    try lia; intros [= <-]; discriminate.
Qed.

Section MainAnyReport.

Context {interp : Interpreter}.

Lemma transform_action_grows (new_data new_data' : list json)
    (item : string * json) :
  transform_action new_data item = Ok new_data' ->
  (List.length new_data < List.length new_data')%nat.
Proof.
  destruct item as [action_id action]. unfold transform_action.
  destruct (py_getitem action "messages") as [messages|]; cbn [bind]; [|discriminate].
  destruct (py_iter messages) as [ms|]; cbn [bind]; [|discriminate].
  destruct (for_each ms _ new_data) as [grown|] eqn:Hloop; cbn [bind]; [|discriminate].
  apply for_each_append_length in Hloop.
  destruct (py_getitem action "result") as [r|]; cbn [bind]; [|discriminate].
  destruct (apply_message_transform r action_id) as [entry|]; cbn [bind];
    [|discriminate].
  intros [= <-]. rewrite length_app, Hloop. simpl. lia.
Qed.

Lemma for_each_transform_action_grows (items : list (string * json))
    (new_data new_data' : list json) :
  for_each items transform_action new_data = Ok new_data' ->
  (List.length new_data + List.length items <= List.length new_data')%nat.
Proof.
  revert new_data. induction items as [|item items IH]; intros new_data;
    cbn [for_each].
  - intros [= <-]. simpl. lia.
  - destruct (transform_action new_data item) as [grown|] eqn:Hitem;
      cbn [bind]; [|discriminate].
    intros Hrest. apply transform_action_grows in Hitem.
    apply IH in Hrest. simpl. lia.
Qed.

(** What the [try] block has done when it ends without an exception. *)
Lemma main_try_ok (w : World) (output output' : OutputCollector) :
  main_try w output = Ok output' ->
  exists data action_results highest rest text msg new_data,
    read_report_file w = Ok data
    /\ py_getitem data "actions" = Ok action_results
    /\ collect_report_level action_results = Ok (highest :: rest)
    /\ gather_textual_report w = Ok text
    /\ generate_report_message highest = Ok msg
    /\ transform_raw_data data = Ok new_data
    /\ output'
       = set_entries
           (set_message (set_report (set_status output highest) text) msg)
           (Some new_data).
Proof.
  unfold main_try.
  destruct (verify_required_files_are_present w); cbn [bind]; [|discriminate].
  destruct (setup_convert2rhel w); cbn [bind]; [|discriminate].
  destruct (install_convert2rhel w); cbn [bind]; [|discriminate].
  destruct (run_convert2rhel w); cbn [bind]; [|discriminate].
  destruct (read_report_file w) as [data|]; cbn [bind]; [|discriminate].
  destruct (py_getitem data "actions") as [action_results|] eqn:Hget;
    cbn [bind]; [|discriminate].
  destruct (collect_report_level action_results) as [[|highest rest]|] eqn:Hcollect;
    cbn [bind list_index nth_error]; try discriminate.
  destruct (gather_textual_report w) as [text|]; cbn [bind]; [|discriminate].
  destruct (generate_report_message highest) as [msg|] eqn:Hmsg;
    cbn [bind]; [|discriminate].
  destruct (transform_raw_data data) as [new_data|] eqn:Htransform;
    cbn [bind]; [|discriminate].
  intros [= <-]. exists data, action_results, highest, rest, text, msg, new_data.
  repeat split; assumption.
Qed.

End MainAnyReport.

Lemma transform_raw_data_not_empty `{Interpreter} (data action_results : json)
    (highest : string) (rest : list string) (new_data : list json) :
  py_getitem data "actions" = Ok action_results ->
  collect_report_level action_results = Ok (highest :: rest) ->
  transform_raw_data data = Ok new_data ->
  exists e es, new_data = e :: es.
Proof.
  intros Hget Hcollect Htransform.
  unfold transform_raw_data in Htransform. rewrite Hget in Htransform.
  cbn [bind] in Htransform.
  destruct action_results as [| | | | |?|items]; try discriminate.
  cbn [py_items bind] in Htransform.
  destruct items as [|item items].
  - rewrite collect_report_level_no_action in Hcollect. discriminate.
  - apply for_each_transform_action_grows in Htransform.
    destruct new_data as [|e es]; [simpl in Htransform; lia|].
    now exists e, es.
Qed.

(** X14: whatever convert2rhel leaves as its report, when the [try] block of
    [main] ends without an exception the collector has at least one entry:
    a status is only set over a report with an action, and each action
    gives an entry. *)
Theorem main_try_has_entries `{Interpreter} (w : World)
    (output output' : OutputCollector) :
  main_try w output = Ok output' ->
  has_entries (entries output').
Proof.
  intros Htry.
  destruct (main_try_ok _ _ Htry)
    as (data & ar & highest & rest & text & msg & new_data
        & _ & Hget & Hcollect & _ & _ & Htransform & ->).
  destruct (transform_raw_data_not_empty _ Hget Hcollect Htransform)
    as (e & es & ->).
  now exists e, es.
Qed.

Lemma main_try_has_entries_witness :
  exists output',
    main_try (interp := sample_interpreter) (sample_world sample_report)
      (OutputCollector_init "" "" "" None) = Ok output'
    /\ has_entries (entries output').
Proof.
  eexists. split; [reflexivity|].
  apply (@main_try_has_entries sample_interpreter (sample_world sample_report)
           (OutputCollector_init "" "" "" None)).
  reflexivity.
Defined.

(** X15: what [main] prints tells a run that failed from one that gave a
    status: [report_json] is [null] exactly when the [try] block raised an
    exception, and so is the [message] empty. *)
Theorem main_tells_failure `{Interpreter} (w : World) (printed : json) :
  main w = Ok printed ->
  ((exists e, main_try w (OutputCollector_init "" "" "" None) = Raise e)
   <-> py_getitem printed "report_json" = Ok JNull)
  /\ ((exists e, main_try w (OutputCollector_init "" "" "" None) = Raise e)
      <-> py_getitem printed "message" = Ok (JStr "")).
Proof.
  unfold main. destruct (cleanup w); cbn [bind]; [|discriminate].
  intros [= <-].
  destruct (main_try w (OutputCollector_init "" "" "" None)) as [output|e] eqn:Htry.
  - destruct (main_try_ok _ _ Htry)
      as (data & ar & highest & rest & text & msg & new_data
          & _ & Hget & Hcollect & _ & Hmsg & Htransform & Hout).
    destruct (transform_raw_data_not_empty _ Hget Hcollect Htransform)
      as (entry & es & ->).
    apply generate_report_message_not_empty in Hmsg.
    unfold main_output. rewrite Htry, Hout. simpl.
    split; (split; [intros (e & He); discriminate|]).
    + discriminate.
    + intros [= Hempty]. congruence.
  - rewrite (main_output_of_failure _ Htry). simpl.
    split; (split; [reflexivity|]); intros _; now exists e.
Qed.

Lemma main_tells_failure_witness :
  ((exists e,
       main_try (interp := sample_interpreter) mismatch_world
         (OutputCollector_init "" "" "" None) = Raise e)
   <-> py_getitem
         (error_output
            "File '/etc/rhsm/ca/redhat-uep.pem' present on the system does not match the one downloaded. Stopping the execution.")
         "report_json" = Ok JNull)
  /\ ((exists e,
         main_try (interp := sample_interpreter) mismatch_world
           (OutputCollector_init "" "" "" None) = Raise e)
      <-> py_getitem
            (error_output
               "File '/etc/rhsm/ca/redhat-uep.pem' present on the system does not match the one downloaded. Stopping the execution.")
            "message" = Ok (JStr "")).
Proof.
  apply (@main_tells_failure sample_interpreter mismatch_world). reflexivity.
Defined.

(** X16: the status [main] prints is always a name of the table: the first
    of the levels [collect_report_level] kept, or ERROR after an
    exception. *)
Theorem main_status_in_table `{Interpreter} (w : World) (printed : json) :
  main w = Ok printed ->
  exists s,
    py_getitem printed "status" = Ok (JStr s)
    /\ status_lookup STATUS_CODE s <> None.
Proof.
  unfold main. destruct (cleanup w); cbn [bind]; [|discriminate].
  intros [= <-].
  destruct (main_try w (OutputCollector_init "" "" "" None)) as [output|e] eqn:Htry.
  - destruct (main_try_ok _ _ Htry)
      as (data & ar & highest & rest & text & msg & new_data
          & _ & _ & Hcollect & _ & _ & _ & Hout).
    exists highest. split.
    + unfold main_output. rewrite Htry, Hout.
      now destruct new_data.
    + exact (collect_report_level_head_known _ Hcollect).
  - exists "ERROR"%string. rewrite (main_output_of_failure _ Htry).
    split; [reflexivity|discriminate].
Qed.

Lemma main_status_in_table_witness :
  exists s,
    py_getitem
      (error_output
         "File '/etc/rhsm/ca/redhat-uep.pem' present on the system does not match the one downloaded. Stopping the execution.")
      "status" = Ok (JStr s)
    /\ status_lookup STATUS_CODE s <> None.
Proof.
  apply (@main_status_in_table sample_interpreter mismatch_world). reflexivity.
Defined.

(** [main] lets no exception of the [try] block out and hides none of
    [cleanup]: it raises exactly what [cleanup] raises. *)
Theorem main_raises_what_cleanup_raises `{Interpreter} (w : World) (e : exn) :
  main w = Raise e <-> cleanup w = Raise e.
Proof.
  unfold main. destruct (cleanup w); cbn [bind]; split; congruence.
Qed.

(** X17: a whole run on a raw report.  When the host lets the script reach
    the report, [collect_report_level] keeps at least one level and
    [cleanup] ends, [main] prints the first level as the status, its message
    as the message, the textual report, and a [report_json] with the entries
    of [transform_raw_data]. *)
Theorem main_on_raw_report `{Interpreter} (w : World) (data : json)
    (highest text : string) (rest : list string) :
  runs_to_report w data ->
  is_raw_report data = true ->
  collect_report_level (JObj (actions_of data)) = Ok (highest :: rest) ->
  gather_textual_report w = Ok text ->
  cleanup w = Ok tt ->
  exists msg new_data,
    generate_report_message highest = Ok msg
    /\ transform_raw_data data = Ok new_data
    /\ main w
       = Ok (JObj
               [ ("status"%string, JStr highest);
                 ("message"%string, JStr msg);
                 ("report"%string, JStr text);
                 ("report_json"%string,
                  JObj [ ("tasks_format_version"%string, JStr "1.0");
                         ("tasks_format_id"%string, JStr "oamg-format");
                         ("entries"%string, JList new_data) ]) ]).
Proof.
  intros Hruns Hraw Hcollect Htext Hclean.
  destruct (is_raw_report_actions _ Hraw) as [Hget _].
  pose proof (transform_raw_data_raw _ Hraw) as Htransform.
  destruct (transform_raw_data_not_empty _ Hget Hcollect Htransform)
    as (entry & es & Hentries).
  pose proof (collect_report_level_head_known _ Hcollect) as Hknown.
  destruct (status_lookup STATUS_CODE highest) as [code|] eqn:Hcode;
    [|contradiction].
  destruct (generate_report_message_total _ Hcode) as (msg & Hmsg).
  exists msg, (flat_map action_entries (actions_of data)).
  split; [assumption|]. split; [assumption|].
  unfold main, main_output.
  rewrite (main_try_raw _ Hruns Hraw Hcollect). cbn [list_index nth_error bind].
  rewrite Htext. cbn [bind]. rewrite Hmsg. cbn [bind].
  rewrite Hclean, Hentries. reflexivity.
Qed.

Lemma main_on_raw_report_witness :
  exists msg new_data,
    generate_report_message "ERROR" = Ok msg
    /\ transform_raw_data (interp := sample_interpreter) sample_report = Ok new_data
    /\ main (interp := sample_interpreter) (sample_world sample_report)
       = Ok (JObj
               [ ("status"%string, JStr "ERROR");
                 ("message"%string, JStr msg);
                 ("report"%string, JStr "The textual report");
                 ("report_json"%string,
                  JObj [ ("tasks_format_version"%string, JStr "1.0");
                         ("tasks_format_id"%string, JStr "oamg-format");
                         ("entries"%string, JList new_data) ]) ]).
Proof.
  apply (@main_on_raw_report sample_interpreter (sample_world sample_report)
           sample_report "ERROR" "The textual report" ["WARNING"; "SUCCESS"]%string).
  - repeat split.
  - reflexivity.
  - reflexivity.
  - reflexivity.
  - reflexivity.
Defined.

(** ** install_convert2rhel *)

(** X18: [install_convert2rhel] ends without an exception exactly when both
    [yum install] and [yum update] have run and returned the code 0. *)
Theorem install_convert2rhel_ok (w : World) :
  install_convert2rhel w = Ok tt
  <-> (exists output,
          run_subprocess w ["yum"; "install"; "convert2rhel"; "-y"]%string None
          = Ok (output, 0))
      /\ (exists output,
             run_subprocess w ["yum"; "update"; "convert2rhel"; "-y"]%string None
             = Ok (output, 0)).
Proof.
  unfold install_convert2rhel.
  destruct (run_subprocess w ["yum"; "install"; "convert2rhel"; "-y"]%string None)
    as [[output1 code1]|e1]; cbn [bind].
  - destruct (code1 =? 0) eqn:Hcode1; cbn [negb].
    + apply Z.eqb_eq in Hcode1. subst code1.
      destruct (run_subprocess w ["yum"; "update"; "convert2rhel"; "-y"]%string None)
        as [[output2 code2]|e2]; cbn [bind].
      * destruct (code2 =? 0) eqn:Hcode2; cbn [negb].
        -- apply Z.eqb_eq in Hcode2. subst code2. split; [eauto|reflexivity].
        -- apply Z.eqb_neq in Hcode2. split; [discriminate|].
           intros [_ (output & [= _ Hzero])]. congruence.
      * split; [discriminate|]. intros [_ (output & Hrun)]. discriminate.
    + apply Z.eqb_neq in Hcode1. split; [discriminate|].
      intros [(output & [= _ Hzero]) _]. congruence.
  - split; [discriminate|]. intros [(output & Hrun) _]. discriminate.
Qed.

(** ** The required files on the host *)

Section RequiredFiles.

Context {system : Type} (H : Files.Host system).

Lemma verify_cons_ok (s : system) (f : Files.RequiredFile)
    (rest files' : list Files.RequiredFile) :
  Files.verify_required_files_are_present H s (f :: rest) = (files', Ok tt) ->
  exists f' rest',
    files' = f' :: rest'
    /\ Files.verify_required_files_are_present H s rest = (rest', Ok tt)
    /\ Files.path f' = Files.path f
    /\ ((Files.is_file_present f' = true
         /\ exists text digest,
              Files.open_read H s (Files.path f) = Files.ReadOk text
              /\ Files.sha512_of_text H text = Ok digest
              /\ Files.sha512_on_system f' = Some digest)
        \/ (Files.is_file_present f' = false
            /\ Files.sha512_on_system f' = Files.sha512_on_system f
            /\ exists text,
                 Files.open_read H s (Files.path f) = Files.ReadIOError text)).
Proof.
  cbn [Files.verify_required_files_are_present].
  destruct (Files.open_read H s (Files.path f)) as [text|text|e] eqn:Hread;
    [| |discriminate].
  - destruct (Files.sha512_of_text H text) as [digest|e] eqn:Hhash; [|discriminate].
    destruct (Files.verify_required_files_are_present H s rest) as [rest' outcome].
    intros [= <- ->]. eexists _, _. split; [reflexivity|].
    split; [reflexivity|]. split; [reflexivity|]. left.
    split; [reflexivity|]. exists text, digest. now repeat split.
  - destruct (Files.verify_required_files_are_present H s rest) as [rest' outcome].
    intros [= <- ->]. eexists _, _. split; [reflexivity|].
    split; [reflexivity|]. split; [reflexivity|]. right.
    split; [reflexivity|]. split; [reflexivity|]. now exists text.
Qed.

End RequiredFiles.

(** X19: [cleanup] leaves the host as it is, and raises nothing, when every
    required file is marked as present or is not there. *)
Theorem cleanup_leaves_system {system : Type} (H : Files.Host system)
    (required_files : list Files.RequiredFile) (s : system) :
  (forall f,
      In f required_files ->
      Files.is_file_present f = true
      \/ Files.os_path_exists H s (Files.path f) = false) ->
  Files.cleanup H required_files s = (s, Ok tt).
Proof.
  induction required_files as [|f rest IH]; intros Hkeep;
    cbn [Files.cleanup]; [reflexivity|].
  destruct (Hkeep f (or_introl eq_refl)) as [-> | ->]; cbn [negb andb];
    rewrite ?andb_false_r; apply IH; intros g Hg; apply Hkeep; now right.
Qed.

Lemma cleanup_leaves_system_witness :
  Files.cleanup Files.sample_host
    [ {| Files.path := "/etc/a"; Files.host := "https://example/a";
         Files.sha512_on_system := Some "a"%string;
         Files.is_file_present := true |};
      Files.RequiredFile_init "/etc/b" "https://example/b" ]
    [("/etc/a"%string, "a"%string)]
  = ([("/etc/a"%string, "a"%string)], Ok tt).
Proof.
  apply (@cleanup_leaves_system _ Files.sample_host).
  intros f [<-|[<-|[]]]; [now left|now right].
Defined.

(** X20: when [verify_required_files_are_present] ends without an
    exception, it has kept every path, and has marked a file as present
    exactly when it could read it, with the digest of what it read; a file
    whose reading ended in an [IOError] or [OSError] is marked as absent and
    keeps the digest it had. *)
Theorem verify_marks_what_it_read {system : Type} (H : Files.Host system)
    (s : system) (required_files files' : list Files.RequiredFile) :
  Files.verify_required_files_are_present H s required_files = (files', Ok tt) ->
  Forall2
    (fun f f' =>
       Files.path f' = Files.path f
       /\ ((Files.is_file_present f' = true
            /\ exists text digest,
                 Files.open_read H s (Files.path f) = Files.ReadOk text
                 /\ Files.sha512_of_text H text = Ok digest
                 /\ Files.sha512_on_system f' = Some digest)
           \/ (Files.is_file_present f' = false
               /\ Files.sha512_on_system f' = Files.sha512_on_system f
               /\ exists text,
                    Files.open_read H s (Files.path f) = Files.ReadIOError text)))
    required_files files'.
Proof.
  revert files'. induction required_files as [|f rest IH]; intros files' Hverify.
  - injection Hverify as <-. constructor.
  - destruct (verify_cons_ok _ _ _ _ Hverify)
      as (f' & rest' & -> & Hrest & Hpath & Hmark).
    constructor; [now split|]. now apply IH.
Qed.

Lemma verify_marks_what_it_read_witness :
  Forall2
    (fun f f' =>
       Files.path f' = Files.path f
       /\ ((Files.is_file_present f' = true
            /\ exists text digest,
                 Files.open_read Files.sample_host [("/etc/a"%string, "a"%string)]
                   (Files.path f) = Files.ReadOk text
                 /\ Files.sha512_of_text Files.sample_host text = Ok digest
                 /\ Files.sha512_on_system f' = Some digest)
           \/ (Files.is_file_present f' = false
               /\ Files.sha512_on_system f' = Files.sha512_on_system f
               /\ exists text,
                    Files.open_read Files.sample_host [("/etc/a"%string, "a"%string)]
                      (Files.path f) = Files.ReadIOError text)))
    [ Files.RequiredFile_init "/etc/a" "https://example/a";
      Files.RequiredFile_init "/etc/b" "https://example/b" ]
    [ {| Files.path := "/etc/a"; Files.host := "https://example/a";
         Files.sha512_on_system := Some "a"%string;
         Files.is_file_present := true |};
      Files.RequiredFile_init "/etc/b" "https://example/b" ].
Proof.
  apply (@verify_marks_what_it_read _ Files.sample_host
           [("/etc/a"%string, "a"%string)]).
  reflexivity.
Defined.

(** X21: [setup_convert2rhel] writes nothing and raises nothing when every
    required file is there with the digest of what is downloaded for it. *)
Theorem setup_leaves_system {system : Type} (H : Files.Host system)
    (required_files : list Files.RequiredFile) (s : system) :
  (forall f,
      In f required_files ->
      exists data,
        Files.urlopen_read H s (Files.host f) = Ok data
        /\ Files.os_path_exists H s (Files.path f) = true
        /\ Files.sha512_on_system f = Some (Files.sha512_of_data H data)) ->
  Files.setup_convert2rhel H required_files s = (s, Ok tt).
Proof.
  induction required_files as [|f rest IH]; intros Hsame;
    cbn [Files.setup_convert2rhel]; [reflexivity|].
  destruct (Hsame f (or_introl eq_refl)) as (data & -> & -> & ->).
  rewrite String.eqb_refl. cbn [negb].
  apply IH. intros g Hg. apply Hsame. now right.
Qed.

Lemma setup_leaves_system_witness :
  Files.setup_convert2rhel Files.sample_host
    [ {| Files.path := "/etc/a"; Files.host := "https://example/a";
         Files.sha512_on_system := Some "downloaded"%string;
         Files.is_file_present := true |} ]
    [("/etc/a"%string, "downloaded"%string)]
  = ([("/etc/a"%string, "downloaded"%string)], Ok tt).
Proof.
  apply (@setup_leaves_system _ Files.sample_host).
  intros f [<-|[]]. exists "downloaded"%string. now repeat split.
Defined.

(** X22: the check of a file that is there.  When the first required file
    can be read and hashed, and what is downloaded for it has another
    digest, [setup_convert2rhel] after [verify_required_files_are_present]
    raises the [ProcessError] that names the path, and has written
    nothing. *)
Theorem verify_then_setup_mismatch {system : Type} (H : Files.Host system)
    (s : system) (f : Files.RequiredFile) (rest : list Files.RequiredFile)
    (text digest data : string) :
  Files.open_read H s (Files.path f) = Files.ReadOk text ->
  Files.sha512_of_text H text = Ok digest ->
  Files.os_path_exists H s (Files.path f) = true ->
  Files.urlopen_read H s (Files.host f) = Ok data ->
  Files.sha512_of_data H data <> digest ->
  Files.setup_convert2rhel H
    (fst (Files.verify_required_files_are_present H s (f :: rest))) s
  = (s, Raise (ProcessError (Files.mismatch_message (Files.path f)))).
Proof.
  intros Hread Hhash Hexists Hdownload Hdiffer.
  cbn [Files.verify_required_files_are_present]. rewrite Hread, Hhash.
  destruct (Files.verify_required_files_are_present H s rest) as [rest' outcome].
  cbn [fst Files.setup_convert2rhel Files.path Files.host Files.sha512_on_system].
  rewrite Hdownload, Hexists.
  apply String.eqb_neq in Hdiffer. now rewrite Hdiffer.
Qed.

Lemma verify_then_setup_mismatch_witness :
  Files.setup_convert2rhel Files.sample_host
    (fst (Files.verify_required_files_are_present Files.sample_host
            [("/etc/a"%string, "local"%string)]
            [Files.RequiredFile_init "/etc/a" "https://example/a"]))
    [("/etc/a"%string, "local"%string)]
  = ([("/etc/a"%string, "local"%string)],
     Raise (ProcessError (Files.mismatch_message "/etc/a"))).
Proof.
  apply (@verify_then_setup_mismatch _ Files.sample_host
           [("/etc/a"%string, "local"%string)]
           (Files.RequiredFile_init "/etc/a" "https://example/a") []
           "local" "local" "downloaded");
    try reflexivity.
  discriminate.
Defined.

(** X23: a path that is there and cannot be read.  When reading the first
    required file ends in an [IOError] or [OSError], no digest was recorded
    for it and [os.path.exists] still finds the path, [setup_convert2rhel]
    stops at its comparison with an [AttributeError] on [None], not with the
    [ProcessError] of a mismatch. *)
Theorem verify_then_setup_unreadable {system : Type} (H : Files.Host system)
    (s : system) (f : Files.RequiredFile) (rest : list Files.RequiredFile)
    (text data : string) :
  Files.open_read H s (Files.path f) = Files.ReadIOError text ->
  Files.sha512_on_system f = None ->
  Files.os_path_exists H s (Files.path f) = true ->
  Files.urlopen_read H s (Files.host f) = Ok data ->
  Files.setup_convert2rhel H
    (fst (Files.verify_required_files_are_present H s (f :: rest))) s
  = (s, Raise (AttributeError "hexdigest" JNull)).
Proof.
  intros Hread Hnone Hexists Hdownload.
  cbn [Files.verify_required_files_are_present]. rewrite Hread.
  destruct (Files.verify_required_files_are_present H s rest) as [rest' outcome].
  cbn [fst Files.setup_convert2rhel Files.path Files.host Files.sha512_on_system].
  now rewrite Hdownload, Hexists, Hnone.
Qed.

(** X24: when [verify_required_files_are_present] has ended without an
    exception, [cleanup] passes over each file the verification could read,
    whatever the others are and whatever has become of the host since: it
    does what it does on the files whose reading ended in an [IOError] or
    [OSError], and no more. *)
Theorem cleanup_skips_read_files {system : Type} (H : Files.Host system)
    (s s' : system) (required_files files' : list Files.RequiredFile) :
  Files.verify_required_files_are_present H s required_files = (files', Ok tt) ->
  Files.cleanup H files' s'
  = Files.cleanup H
      (filter
         (fun f =>
            match Files.open_read H s (Files.path f) with
            | Files.ReadOk _ => false
            | _ => true
            end)
         files')
      s'.
Proof.
  revert files' s'.
  induction required_files as [|f rest IH]; intros files' s' Hverify.
  - now injection Hverify as <-.
  - destruct (verify_cons_ok _ _ _ _ Hverify)
      as (f' & rest' & -> & Hrest & Hpath & Hmark).
    cbn [filter]. rewrite Hpath.
    destruct Hmark as [(Hpresent & text & digest & Hread & _)
                      |(Habsent & _ & text & Hread)];
      rewrite Hread; cbn [Files.cleanup].
    + rewrite Hpresent. cbn [negb andb]. now apply IH.
    + rewrite Habsent. cbn [negb andb].
      destruct (Files.os_path_exists H s' (Files.path f')); [|now apply IH].
      destruct (Files.os_remove H s' (Files.path f')) as [after [[]|e]];
        [now apply IH|reflexivity].
Qed.

Lemma cleanup_skips_read_files_witness :
  Files.cleanup Files.sample_host
    [ {| Files.path := "/etc/a"; Files.host := "https://example/a";
         Files.sha512_on_system := Some "a"%string;
         Files.is_file_present := true |};
      Files.RequiredFile_init "/etc/b" "https://example/b" ]
    [("/etc/b"%string, "downloaded"%string); ("/etc/a"%string, "a"%string)]
  = Files.cleanup Files.sample_host
      [ Files.RequiredFile_init "/etc/b" "https://example/b" ]
      [("/etc/b"%string, "downloaded"%string); ("/etc/a"%string, "a"%string)].
Proof.
  apply (@cleanup_skips_read_files _ Files.sample_host
           [("/etc/a"%string, "a"%string)]
           [("/etc/b"%string, "downloaded"%string); ("/etc/a"%string, "a"%string)]
           [ Files.RequiredFile_init "/etc/a" "https://example/a";
             Files.RequiredFile_init "/etc/b" "https://example/b" ]).
  reflexivity.
Defined.

(** After a verification that read [/etc/a] and not [/etc/b], [cleanup]
    removes the downloaded [/etc/b] and keeps [/etc/a]. *)
Example sample_cleanup :
  Files.cleanup Files.sample_host
    (fst (Files.verify_required_files_are_present Files.sample_host
            [("/etc/a"%string, "a"%string)]
            [ Files.RequiredFile_init "/etc/a" "https://example/a";
              Files.RequiredFile_init "/etc/b" "https://example/b" ]))
    [("/etc/b"%string, "downloaded"%string); ("/etc/a"%string, "a"%string)]
  = ([("/etc/a"%string, "a"%string)], Ok tt).
Proof. reflexivity. Qed.

(** X25: when hashing what was read of the first required file raises,
    [verify_required_files_are_present] stops with that exception and the
    file as it was; if it was marked as absent, as [RequiredFile] starts,
    and the path is there, [cleanup] then removes it. *)
Theorem cleanup_removes_unhashed_file {system : Type} (H : Files.Host system)
    (s s' : system) (f : Files.RequiredFile) (rest : list Files.RequiredFile)
    (text : string) (e : exn) :
  Files.open_read H s (Files.path f) = Files.ReadOk text ->
  Files.sha512_of_text H text = Raise e ->
  Files.is_file_present f = false ->
  Files.os_path_exists H s' (Files.path f) = true ->
  Files.verify_required_files_are_present H s (f :: rest) = (f :: rest, Raise e)
  /\ Files.cleanup H (f :: rest) s'
     = (let '(after, removed) := Files.os_remove H s' (Files.path f) in
        match removed with
        | Raise e' => (after, Raise e')
        | Ok _ => Files.cleanup H rest after
        end).
Proof.
  intros Hread Hhash Habsent Hexists. split.
  - cbn [Files.verify_required_files_are_present]. now rewrite Hread, Hhash.
  - cbn [Files.cleanup]. now rewrite Habsent, Hexists.
Qed.

Lemma cleanup_removes_unhashed_file_witness :
  Files.verify_required_files_are_present Files.sample_host_text_unhashable
    [("/etc/a"%string, "a"%string)]
    [Files.RequiredFile_init "/etc/a" "https://example/a"]
  = ([Files.RequiredFile_init "/etc/a" "https://example/a"],
     Raise (OtherException "Strings must be encoded before hashing"))
  /\ Files.cleanup Files.sample_host_text_unhashable
       [Files.RequiredFile_init "/etc/a" "https://example/a"]
       [("/etc/a"%string, "a"%string)]
     = ([], Ok tt).
Proof.
  apply (@cleanup_removes_unhashed_file _ Files.sample_host_text_unhashable
           [("/etc/a"%string, "a"%string)] [("/etc/a"%string, "a"%string)]
           (Files.RequiredFile_init "/etc/a" "https://example/a") [] "a");
    reflexivity.
Defined.

Lemma verify_then_setup_unreadable_witness :
  Files.setup_convert2rhel Files.sample_host_directories
    (fst (Files.verify_required_files_are_present Files.sample_host_directories
            []
            [Files.RequiredFile_init "/etc/a" "https://example/a"]))
    []
  = ([], Raise (AttributeError "hexdigest" JNull)).
Proof.
  apply (@verify_then_setup_unreadable _ Files.sample_host_directories []
           (Files.RequiredFile_init "/etc/a" "https://example/a") []
           "Is a directory" "downloaded");
    reflexivity.
Defined.

(** ** STATUS_CODE_NAME *)

Lemma status_name_In (table : list (Z * string)) (code : Z) (name : string) :
  status_name table code = Some name -> In (code, name) table.
Proof.
  induction table as [|[n k] table IH]; simpl; [discriminate|].
  destruct (n =? code) eqn:Hn.
  - apply Z.eqb_eq in Hn. intros [= <-]. subst n. now left.
  - intros Hrest. right. auto.
Qed.

(** X26: [STATUS_CODE_NAME] turns [STATUS_CODE] around and loses nothing: a
    name has a code in the one exactly when the code has that name in the
    other. *)
Theorem STATUS_CODE_NAME_inverse (name : string) (code : Z) :
  status_lookup STATUS_CODE name = Some code
  <-> status_name STATUS_CODE_NAME code = Some name.
Proof.
  split; intros Hlookup.
  - apply status_lookup_In in Hlookup. simpl in Hlookup.
    repeat (destruct Hlookup as [[= <- <-]|Hlookup]; [reflexivity|]).
    destruct Hlookup.
  - apply status_name_In in Hlookup. simpl in Hlookup.
    repeat (destruct Hlookup as [[= <- <-]|Hlookup]; [reflexivity|]).
    destruct Hlookup.
Qed.
